(** * The [delete-account] edge function: organization deprovisioning

    A shallow embedding of the serverless handler that removes an
    organization together with the identity accounts linked to it.  The
    handler is a sequence of awaited remote calls; it is embedded as a
    program over an event signature (one event per remote call or console
    statement of the source), with JavaScript exceptions as a separate
    constructor so that [try]/[catch] keeps its shape.  A run of the program
    is a trace of answered calls together with the outcome.

    Every awaited call is taken to resolve to a value of its result type
    (the [{ data, error }] pairs of the client library); [createClient] is
    taken to return.  What the collaborators answer is not fixed: the
    properties of Part II hold for every run, whatever the answers. *)

From Stdlib Require Import List String Bool ZArith.
Import ListNotations.
Local Open Scope string_scope.
Local Open Scope list_scope.

Set Implicit Arguments.

(** * Part I: the embedding *)

(** ** JSON values and JavaScript truthiness *)

Module Js.

(** The values [JSON.parse] can produce.  Numbers are kept as integers:
    the handler only tests a number for being zero.  An object lists its
    fields as parsed, one entry per key. *)
#[warnings="-register-all"]
Inductive json : Type :=
| JNull
| JBool (b : bool)
| JNumber (n : Z)
| JString (s : string)
| JArray (items : list json)
| JObject (fields : list (string * json)).

(** [if (v)] on a JSON value. *)
Definition truthy (v : json) : bool :=
  match v with
  | JNull => false
  | JBool b => b
  | JNumber n => negb (Z.eqb n 0)
  | JString s => negb (String.eqb s "")
  | JArray _ => true
  | JObject _ => true
  end.

(** A value that may be [undefined]. *)
Definition value := option json.

Definition truthy_value (v : value) : bool :=
  match v with
  | None => false
  | Some j => truthy j
  end.

Fixpoint lookup (key : string) (fields : list (string * json)) : value :=
  match fields with
  | [] => None
  | (k, v) :: rest => if String.eqb k key then Some v else lookup key rest
  end.

(** [v.key]: [None] when the access itself throws (only on [null] among
    JSON values), [Some undefined] on primitives, arrays and objects
    without the key. *)
Definition get_property (v : json) (key : string) : option value :=
  match v with
  | JNull => None
  | JObject fields => Some (lookup key fields)
  | _ => Some None
  end.

(** [v !== s] for a string literal [s]. *)
Definition strict_neq_string (v : value) (s : string) : bool :=
  match v with
  | Some (JString s') => negb (String.eqb s' s)
  | _ => true
  end.

End Js.
Import Js.

(** ** Data exchanged with the collaborators *)

Record PostgrestError : Type := mkPostgrestError {
  pg_message : string;
  pg_details : string;
  pg_hint : string;
  pg_code : string
}.

Record AuthError : Type := mkAuthError {
  auth_message : string;
  auth_status : nat
}.

(** The [{ data, error }] pair every query builder resolves to. *)
Record QueryResult (A : Type) : Type := mkQueryResult {
  data : option A;
  error : option PostgrestError
}.

Record User : Type := mkUser { id : string }.

(** A row of [user_profiles] restricted to [select('role')]. *)
Record Profile : Type := mkProfile { role : json }.

(** A row of [organizations] restricted to [select('id, name')]. *)
Record Organization : Type := mkOrganization { org_id : string; org_name : string }.

(** A row of [user_profiles] restricted to [select('user_id')]. *)
Record LinkedUser : Type := mkLinkedUser { user_id : json }.

(** Values that reach a [catch] clause. *)
Inductive Exception : Type :=
| Error (message : string)
| SyntaxError (message : string)
| TypeError (message : string)
| ThrownPostgrestError (e : PostgrestError).

(** [error.message] *)
Definition error_message (e : Exception) : string :=
  match e with
  | Error m => m
  | SyntaxError m => m
  | TypeError m => m
  | ThrownPostgrestError e => pg_message e
  end.

(** The incoming request: its method, its [Authorization] header and what
    [req.json()] resolves to ([inl m]: it rejects with a [SyntaxError]). *)
Record Request : Type := mkRequest {
  method : string;
  authorization : option string;
  json_body : string + json
}.

(** [Deno.env] *)
Record DenoEnv : Type := mkDenoEnv {
  SUPABASE_URL : option string;
  SUPABASE_ANON_KEY : option string;
  SERVICE_ROLE_KEY : option string
}.

Inductive Body : Type :=
| BodyText (text : string)
| BodyJson (value : json).   (* JSON.stringify(value) *)

Record Response : Type := mkResponse {
  status : nat;
  headers : list (string * string);
  body : Body
}.

(** ** Events: the calls the handler awaits *)

Inductive LogEntry : Type :=
| ReceivedRequestBody (body : json)
| FailedToParseRequestBody (e : Exception)
| ServiceRoleKeyMissing
| DatabaseErrorFetchingOrganization (e : PostgrestError)
| OrganizationNotFoundWithID (organizationId : json)
| DeletingOrganization (name id : string)
| ErrorFindingLinkedUsers (e : PostgrestError)
| DeletingAuthUser (user_id : json)
| FailedToDeleteAuthUser (user_id : json) (e : AuthError)
| EdgeFunctionError (message : string).

(** One constructor per call site.  The calls of [supabaseClient] carry the
    caller's [Authorization] header the client was created with; the calls of
    [supabaseAdmin] are those after [CreateAdminClient].  The two calls of
    [createClient] are taken to return a client, as the library declares
    them: a deployment on which [createClient] throws at line 17 (no
    [SUPABASE_URL] or no [SUPABASE_ANON_KEY]) is outside the model. *)
Variant event : Type -> Type :=
(* line 17: createClient(url, anonKey, { Authorization }) *)
| CreateClient (supabaseUrl supabaseKey : string) (auth : option string) : event unit
(* line 24: supabaseClient.auth.getUser() *)
| AuthGetUser (auth : option string) : event (option User)
(* line 31: supabaseClient.from('user_profiles').select('role').eq('user_id', _).single() *)
| SelectProfileRole (auth : option string) (user_id : string) : event (QueryResult Profile)
(* line 44: req.json() *)
| ReqJson : event unit
(* line 64: createClient(url, serviceRoleKey) *)
| CreateAdminClient (supabaseUrl serviceRoleKey : string) : event unit
(* line 71: supabaseAdmin.from('organizations').select('id, name').eq('id', _).single() *)
| SelectOrganization (id : json) : event (QueryResult Organization)
(* line 91: supabaseAdmin.from('user_profiles').select('user_id').eq('current_organization_id', _) *)
| SelectLinkedUsers (organizationId : json) : event (QueryResult (list LinkedUser))
(* line 106: supabaseAdmin.auth.admin.deleteUser(_) *)
| AdminDeleteUser (user_id : json) : event (option AuthError)
(* line 120: supabaseAdmin.from('organizations').delete().eq('id', _) *)
| DeleteOrganization (id : json) : event (option PostgrestError)
| ConsoleLog (entry : LogEntry) : event unit
| ConsoleError (entry : LogEntry) : event unit.

(** ** Programs *)

Inductive prog (R : Type) : Type :=
| Ret (r : R)
| Throw (e : Exception)
| Vis (X : Type) (ev : event X) (k : X -> prog R).

Arguments Ret {R} r.
Arguments Throw {R} e.
Arguments Vis {R X} ev k.

Fixpoint bind {A B : Type} (p : prog A) (k : A -> prog B) : prog B :=
  match p with
  | Ret a => k a
  | Throw e => Throw e
  | Vis ev c => Vis ev (fun x => bind (c x) k)
  end.

(** [try { p } catch (e) { h e }] *)
Fixpoint try_catch {A : Type} (p : prog A) (h : Exception -> prog A) : prog A :=
  match p with
  | Ret a => Ret a
  | Throw e => h e
  | Vis ev c => Vis ev (fun x => try_catch (c x) h)
  end.

Definition trigger {X : Type} (ev : event X) : prog X := Vis ev Ret.

Declare Scope prog_scope.
Delimit Scope prog_scope with prog.
Notation "x <- p ;; q" := (bind p (fun x => q))
  (at level 61, p at next level, right associativity) : prog_scope.
Notation "p ;; q" := (bind p (fun _ => q))
  (at level 61, right associativity) : prog_scope.
Local Open Scope prog_scope.

(** [a ?? b] on an optional string. *)
Definition nullish (a : option string) (b : string) : string :=
  match a with
  | Some s => s
  | None => b
  end.

(** ** The handler *)

Definition corsHeaders : list (string * string) :=
  [ ("Access-Control-Allow-Origin", "*");
    ("Access-Control-Allow-Headers", "authorization, x-client-info, apikey, content-type") ].

Definition json_headers : list (string * string) :=
  corsHeaders ++ [ ("Content-Type", "application/json") ].

Definition success_response : Response :=
  mkResponse 200 json_headers
    (BodyJson (JObject
       [ ("message", JString "Organization and associated accounts deleted successfully") ])).

Definition failure_response (e : Exception) : Response :=
  mkResponse 400 json_headers
    (BodyJson (JObject
       [ ("error", JString (error_message e));
         ("details", JString "Check Supabase Function Logs for more info") ])).

(** [new Response('ok', { headers: corsHeaders })]: a body given as a string
    brings its content type when the headers name none. *)
Definition preflight_response : Response :=
  mkResponse 200
    (corsHeaders ++ [ ("Content-Type", "text/plain;charset=UTF-8") ])
    (BodyText "ok").

(** Step 7: the loop over the enumerated profiles. *)
Fixpoint delete_auth_users (users : list LinkedUser) : prog unit :=
  match users with
  | [] => Ret tt
  | u :: rest =>
      (if truthy (user_id u) then
         trigger (ConsoleLog (DeletingAuthUser (user_id u))) ;;
         deleteAuthError <- trigger (AdminDeleteUser (user_id u)) ;;
         match deleteAuthError with
         | Some e => trigger (ConsoleError (FailedToDeleteAuthUser (user_id u) e))
         | None => Ret tt
         end
       else Ret tt) ;;
      delete_auth_users rest
  end.

(** Step 3: the inner [try] around [req.json()]. *)
Definition read_organizationId (req : Request) : prog value :=
  try_catch
    (trigger ReqJson ;;
     body <- match json_body req with
             | inl m => Throw (SyntaxError m)
             | inr b => Ret b
             end ;;
     organizationId <- match get_property body "organizationId" with
                       | None => Throw (TypeError
                           "Cannot read properties of null (reading 'organizationId')")
                       | Some v => Ret v
                       end ;;
     trigger (ConsoleLog (ReceivedRequestBody body)) ;;
     Ret organizationId)
    (fun e =>
       trigger (ConsoleError (FailedToParseRequestBody e)) ;;
       Throw (Error "Invalid request body")).

(** The body of the outer [try]. *)
Definition deprovision_try (env : DenoEnv) (req : Request) : prog Response :=
  let auth := authorization req in
  (* 1. client with the auth context of the caller *)
  trigger (CreateClient (nullish (SUPABASE_URL env) "")
                        (nullish (SUPABASE_ANON_KEY env) "") auth) ;;
  (* 2. is the caller a super admin? *)
  user <- trigger (AuthGetUser auth) ;;
  match user with
  | None => Throw (Error "Unauthorized")
  | Some user =>
  profileRes <- trigger (SelectProfileRole auth (id user)) ;;
  if strict_neq_string (option_map role (data profileRes)) "super_admin" then
    Throw (Error "Unauthorized: Only Super Admins can perform this action")
  else
  (* 3. organization id from the request body *)
  organizationId <- read_organizationId req ;;
  match organizationId with
  | None => Throw (Error "Organization ID is required")
  | Some organizationId =>
  if negb (truthy organizationId) then
    Throw (Error "Organization ID is required")
  else
  match SERVICE_ROLE_KEY env with
  | None =>
      trigger (ConsoleError ServiceRoleKeyMissing) ;;
      Throw (Error "Server misconfiguration: Service Role Key is missing")
  | Some serviceRoleKey =>
  if String.eqb serviceRoleKey "" then
    trigger (ConsoleError ServiceRoleKeyMissing) ;;
    Throw (Error "Server misconfiguration: Service Role Key is missing")
  else
  (* 4. admin client *)
  trigger (CreateAdminClient (nullish (SUPABASE_URL env) "") serviceRoleKey) ;;
  (* 5. find the organization *)
  orgRes <- trigger (SelectOrganization organizationId) ;;
  match error orgRes with
  | Some orgError =>
      trigger (ConsoleError (DatabaseErrorFetchingOrganization orgError)) ;;
      Throw (Error ("Database Error: " ++ pg_message orgError))
  | None =>
  match data orgRes with
  | None =>
      trigger (ConsoleError (OrganizationNotFoundWithID organizationId)) ;;
      Throw (Error "Organization not found")
  | Some org =>
  trigger (ConsoleLog (DeletingOrganization (org_name org) (org_id org))) ;;
  (* 6. users linked to the organization *)
  usersRes <- trigger (SelectLinkedUsers organizationId) ;;
  match error usersRes with
  | Some usersError => trigger (ConsoleError (ErrorFindingLinkedUsers usersError))
  | None => Ret tt
  end ;;
  (* 7. delete their authentication accounts *)
  match data usersRes with
  | Some ((_ :: _) as users) => delete_auth_users users
  | _ => Ret tt
  end ;;
  (* 8. delete the organization *)
  deleteOrgError <- trigger (DeleteOrganization organizationId) ;;
  match deleteOrgError with
  | Some e => Throw (ThrownPostgrestError e)
  | None => Ret success_response
  end
  end end end end end.

(** [try { ... } catch (error) { ... }]: the deprovisioning workflow. *)
Definition deprovision (env : DenoEnv) (req : Request) : prog Response :=
  try_catch (deprovision_try env req)
    (fun error =>
       trigger (ConsoleError (EdgeFunctionError (error_message error))) ;;
       Ret (failure_response error)).

(** The callback given to [serve]. *)
Definition handler (env : DenoEnv) (req : Request) : prog Response :=
  if String.eqb (method req) "OPTIONS" then Ret preflight_response
  else deprovision env req.

(** ** Runs

    A call is an event together with the answer it received; a run of a
    program is the sequence of its calls and the way it ended. *)

Record call : Type := Call {
  call_type : Type;
  call_event : event call_type;
  call_answer : call_type
}.

Arguments Call {call_type} call_event call_answer.

Definition trace := list call.

Inductive outcome (R : Type) : Type :=
| Returned (r : R)
| Thrown (e : Exception).

Arguments Returned {R} r.
Arguments Thrown {R} e.

Fixpoint runs {R : Type} (p : prog R) (t : trace) (o : outcome R) : Prop :=
  match p with
  | Ret r => t = [] /\ o = Returned r
  | Throw e => t = [] /\ o = Thrown e
  | Vis ev k => exists x t', t = Call ev x :: t' /\ runs (k x) t' o
  end.

(** *** Classifying calls *)

(** The calls that need the service-role secret: creating [supabaseAdmin]
    and everything issued through it. *)
Definition privileged (c : call) : bool :=
  match call_event c with
  | CreateAdminClient _ _ => true
  | SelectOrganization _ => true
  | SelectLinkedUsers _ => true
  | AdminDeleteUser _ => true
  | DeleteOrganization _ => true
  | _ => false
  end.

(** Queries against the relational store, through either client. *)
Definition store_query (c : call) : bool :=
  match call_event c with
  | SelectProfileRole _ _ => true
  | SelectOrganization _ => true
  | SelectLinkedUsers _ => true
  | DeleteOrganization _ => true
  | _ => false
  end.

Definition reads_body (c : call) : bool :=
  match call_event c with
  | ReqJson => true
  | _ => false
  end.

(** What [auth.getUser()] answered, per call. *)
Definition resolved_identity (c : call) : option (option User) :=
  match c with
  | Call (AuthGetUser _) u => Some u
  | _ => None
  end.

(** The profile the role lookup answered with, per call. *)
Definition looked_up_profile (c : call) : option (option Profile) :=
  match c with
  | Call (SelectProfileRole _ _) r => Some (data r)
  | _ => None
  end.

Definition organization_lookup (c : call) : option (json * QueryResult Organization) :=
  match c with
  | Call (SelectOrganization i) r => Some (i, r)
  | _ => None
  end.

Definition enumeration (c : call) : option (json * QueryResult (list LinkedUser)) :=
  match c with
  | Call (SelectLinkedUsers i) r => Some (i, r)
  | _ => None
  end.

Definition account_deletion (c : call) : option (json * option AuthError) :=
  match c with
  | Call (AdminDeleteUser u) r => Some (u, r)
  | _ => None
  end.

Definition organization_deletion (c : call) : option (json * option PostgrestError) :=
  match c with
  | Call (DeleteOrganization i) r => Some (i, r)
  | _ => None
  end.

(** The answers of one kind found in a trace, in order. *)
Fixpoint collect {A : Type} (f : call -> option A) (t : trace) : list A :=
  match t with
  | [] => []
  | c :: t' =>
      match f c with
      | Some a => a :: collect f t'
      | None => collect f t'
      end
  end.

(** ** The purge loop *)

(** The identifiers the loop tries to delete: those of the profiles whose
    [user_id] is truthy, in the order of enumeration. *)
Definition deletable (users : list LinkedUser) : list json :=
  filter truthy (map user_id users).

(** The calls of one pass of the loop, given how each deletion was answered. *)
Fixpoint purge_calls (ids : list json) (answers : list (option AuthError)) : trace :=
  match ids, answers with
  | u :: ids', a :: answers' =>
      Call (ConsoleLog (DeletingAuthUser u)) tt
      :: Call (AdminDeleteUser u) a
      :: match a with
         | Some e => [Call (ConsoleError (FailedToDeleteAuthUser u e)) tt]
         | None => []
         end
      ++ purge_calls ids' answers'
  | _, _ => []
  end.

Arguments delete_auth_users : simpl never.

(** ** Failures

    The handler raises plain [Error]s that differ only in their message, and
    re-raises the error object of the final delete.  The five kinds of
    failure group the [throw] statements of the outer [try] block:
    lines 27 and 38 ([Unauthorized]), 49 and 53 ([InvalidRequest]),
    59 ([Misconfiguration]), 79 and 84 ([NotFound]), 126 ([DeletionFailed]). *)

Inductive ErrorKind : Type :=
| Unauthorized
| InvalidRequest
| Misconfiguration
| NotFound
| DeletionFailed.

Definition kind_of (e : Exception) : option ErrorKind :=
  match e with
  | ThrownPostgrestError _ => Some DeletionFailed
  | Error m =>
      if (m =? "Unauthorized")
         || (m =? "Unauthorized: Only Super Admins can perform this action")
      then Some Unauthorized
      else if (m =? "Invalid request body") || (m =? "Organization ID is required")
      then Some InvalidRequest
      else if m =? "Server misconfiguration: Service Role Key is missing"
      then Some Misconfiguration
      else if (m =? "Organization not found") || prefix "Database Error: " m
      then Some NotFound
      else None
  | SyntaxError _ => None
  | TypeError _ => None
  end.

(** The call the outer [catch] makes before it answers. *)
Definition edge_error_call (e : Exception) : call :=
  Call (ConsoleError (EdgeFunctionError (error_message e))) tt.

(** A run of [deprovision] fails with kind [k]: the [try] block threw an
    exception of that kind, the [catch] clause logged it and answered with
    the failure envelope built from it. *)
Definition fails_with (env : DenoEnv) (req : Request)
    (t : trace) (o : outcome Response) (k : ErrorKind) : Prop :=
  exists e t',
    runs (deprovision_try env req) t' (Thrown e) /\
    kind_of e = Some k /\
    t = t' ++ [edge_error_call e] /\
    o = Returned (failure_response e).

(** A run of [deprovision] succeeds: the [try] block ran to its [return]. *)
Definition succeeds (env : DenoEnv) (req : Request)
    (t : trace) (o : outcome Response) : Prop :=
  runs (deprovision_try env req) t (Returned success_response) /\
  o = Returned success_response.

(** *** What a run says about the caller and the request *)

Definition is_super_admin (p : option Profile) : Prop :=
  option_map role p = Some (JString "super_admin").

(** [auth.getUser()] answered without a user. *)
Definition caller_unresolved (t : trace) : Prop :=
  In None (collect resolved_identity t).

(** The role lookup answered with no profile or with another role. *)
Definition caller_under_privileged (t : trace) : Prop :=
  exists p, In p (collect looked_up_profile t) /\ ~ is_super_admin p.

(** The caller was resolved and the role lookup answered [super_admin]. *)
Definition caller_authorized (t : trace) : Prop :=
  (exists u, In (Some u) (collect resolved_identity t)) /\
  (exists p, In p (collect looked_up_profile t) /\ is_super_admin p).

(** What [organizationId] holds after step 3, when step 3 completes. *)
Definition organizationId_of (req : Request) : option value :=
  match json_body req with
  | inl _ => None
  | inr b => get_property b "organizationId"
  end.

(** The request carries no usable organization id: the body does not parse,
    is [null], has no [organizationId], or has a falsy one. *)
Definition organizationId_absent (req : Request) : bool :=
  match organizationId_of req with
  | None => true
  | Some v => negb (truthy_value v)
  end.

(** The messages the handler writes itself. *)
Definition fixed_messages : list string :=
  [ "Unauthorized";
    "Unauthorized: Only Super Admins can perform this action";
    "Invalid request body";
    "Organization ID is required";
    "Server misconfiguration: Service Role Key is missing";
    "Organization not found" ].

(** Where the [error] string of a failure response comes from: a message of
    the handler's own, the message of the error the organization lookup
    answered with (prefixed), or the message of the error the organization
    delete answered with. *)
Definition message_source (t : trace) (m : string) : Prop :=
  In m fixed_messages
  \/ (exists i r e, In (i, r) (collect organization_lookup t) /\
                    error r = Some e /\ m = ("Database Error: " ++ pg_message e)%string)
  \/ (exists i e, In (i, Some e) (collect organization_deletion t) /\
                  m = pg_message e).

(** ** Running the handler against a backend *)

(** Answers every call from a state, threading the state through. *)
Fixpoint interp {S R : Type} (h : forall X, event X -> S -> X * S)
    (p : prog R) (s : S) : trace * outcome R * S :=
  match p with
  | Ret r => ([], Returned r, s)
  | Throw e => ([], Thrown e, s)
  | Vis ev k =>
      let (x, s1) := h _ ev s in
      let '(t, o, s2) := interp h (k x) s1 in
      (Call ev x :: t, o, s2)
  end.

(** The outcome and the final state of [interp], without the trace. *)
Fixpoint exec {S R : Type} (h : forall X, event X -> S -> X * S)
    (p : prog R) (s : S) : outcome R * S :=
  match p with
  | Ret r => (Returned r, s)
  | Throw e => (Thrown e, s)
  | Vis ev k => let (x, s1) := h _ ev s in exec h (k x) s1
  end.

Module Backend.

(** A row of [user_profiles]; every column may be [NULL]. *)
Record ProfileRow : Type := mkProfileRow {
  row_user_id : option string;
  row_role : option string;
  row_current_organization_id : option string
}.

(** The two collaborators the handler reaches over the network, the
    identity provider and the relational store, with the operations the
    specification lists for them in its section 6.  [sessions] maps a bearer
    credential to the identity it was issued for, [accounts] lists the
    identity accounts, the two tables hold the rows. *)
Record state : Type := mkState {
  sessions : list (string * string);
  accounts : list string;
  user_profiles : list ProfileRow;
  organizations : list Organization
}.

Definition text (c : option string) : json :=
  match c with
  | Some s => JString s
  | None => JNull
  end.

(** [.eq(column, v)] on a text column: a string matches the rows holding
    it; no other JSON value matches a row. *)
Definition eq_filter (v : json) (column : option string) : bool :=
  match v, column with
  | JString s, Some c => String.eqb c s
  | _, _ => false
  end.

Definition no_single_row : PostgrestError :=
  mkPostgrestError "JSON object requested, multiple (or no) rows returned"
                   "The result contains 0 rows" "" "PGRST116".

(** [.single()]: exactly one row, or an error. *)
Definition single {A : Type} (rows : list A) : QueryResult A :=
  match rows with
  | [r] => mkQueryResult (Some r) None
  | _ => mkQueryResult None (Some no_single_row)
  end.

Fixpoint session_of (h : string) (l : list (string * string)) : option string :=
  match l with
  | [] => None
  | (k, u) :: l' => if String.eqb k h then Some u else session_of h l'
  end.

Definition has_account (b : state) (u : string) : bool :=
  existsb (String.eqb u) (accounts b).

(** [resolveCallerFromToken]: the credential names a session whose account
    still exists. *)
Definition resolve (b : state) (auth : option string) : option User :=
  match auth with
  | None => None
  | Some h =>
      match session_of h (sessions b) with
      | Some u => if has_account b u then Some (mkUser u) else None
      | None => None
      end
  end.

Definition select_role (b : state) (uid : string) : QueryResult Profile :=
  single (map (fun r => mkProfile (text (row_role r)))
              (filter (fun r => eq_filter (JString uid) (row_user_id r))
                      (user_profiles b))).

(** [selectOne(organizations, id)] *)
Definition select_organization (b : state) (i : json) : QueryResult Organization :=
  single (filter (fun o => eq_filter i (Some (org_id o))) (organizations b)).

(** [selectMany(user_profiles, current_organization_id = id)] *)
Definition select_linked_users (b : state) (i : json) : QueryResult (list LinkedUser) :=
  mkQueryResult
    (Some (map (fun r => mkLinkedUser (text (row_user_id r)))
               (filter (fun r => eq_filter i (row_current_organization_id r))
                       (user_profiles b))))
    None.

Definition user_not_found : AuthError := mkAuthError "User not found" 404.

Section Policies.

(** What the store does to [user_profiles] when an identity account or
    an organization goes away (cascade, set null, nothing), whether it
    refuses to delete an organization (a foreign key that restricts, a
    failing connection), and whether the identity provider refuses to delete
    an account (an account that is still referenced, a failing connection):
    left open. *)
Variable on_account_deleted : list ProfileRow -> string -> list ProfileRow.
Variable on_organization_deleted : list ProfileRow -> json -> list ProfileRow.
Variable delete_refused : state -> json -> option PostgrestError.
Variable account_refused : state -> string -> option AuthError.

(** [deleteAccount(userId)]: an error, and the account is left as it was,
    when the provider refuses or there is no such account. *)
Definition delete_account (b : state) (u : json) : option AuthError * state :=
  match u with
  | JString s =>
      match account_refused b s with
      | Some e => (Some e, b)
      | None =>
          if has_account b s then
            (None,
             mkState (sessions b)
                     (filter (fun a => negb (String.eqb a s)) (accounts b))
                     (on_account_deleted (user_profiles b) s)
                     (organizations b))
          else (Some user_not_found, b)
      end
  | _ => (Some user_not_found, b)
  end.

(** [delete(organizations, id)]: the row goes away unless the store refuses. *)
Definition delete_organization (b : state) (i : json) : option PostgrestError * state :=
  match delete_refused b i with
  | Some e => (Some e, b)
  | None =>
      (None,
       mkState (sessions b)
               (accounts b)
               (on_organization_deleted (user_profiles b) i)
               (filter (fun o => negb (eq_filter i (Some (org_id o)))) (organizations b)))
  end.

Definition answer (X : Type) (ev : event X) (b : state) : X * state :=
  match ev in event X return X * state with
  | CreateClient _ _ _ => (tt, b)
  | AuthGetUser auth => (resolve b auth, b)
  | SelectProfileRole _ uid => (select_role b uid, b)
  | ReqJson => (tt, b)
  | CreateAdminClient _ _ => (tt, b)
  | SelectOrganization i => (select_organization b i, b)
  | SelectLinkedUsers i => (select_linked_users b i, b)
  | AdminDeleteUser u => delete_account b u
  | DeleteOrganization i => delete_organization b i
  | ConsoleLog _ => (tt, b)
  | ConsoleError _ => (tt, b)
  end.

(** One invocation of the workflow against the backend. *)
Definition invoke (env : DenoEnv) (req : Request) (b : state)
  : trace * outcome Response * state :=
  interp answer (deprovision env req) b.

End Policies.

Definition trace_of (i : trace * outcome Response * state) : trace := fst (fst i).
Definition outcome_of (i : trace * outcome Response * state) : outcome Response :=
  snd (fst i).
Definition state_of (i : trace * outcome Response * state) : state := snd i.

(** The caller resolves to an identity whose profile holds [super_admin]. *)
Definition authorized (b : state) (auth : option string) : bool :=
  match resolve b auth with
  | Some u =>
      negb (strict_neq_string (option_map role (data (select_role b (id u))))
                              "super_admin")
  | None => false
  end.

(** [oid] references an organization: it is the key of exactly one row of
    [organizations].  Keys are generated identifiers, never the empty
    string. *)
Definition references (b : state) (oid : string) : Prop :=
  oid <> "" /\
  exists org,
    filter (fun o => eq_filter (JString oid) (Some (org_id o))) (organizations b) = [org].

(** A store that deletes whatever it is asked to. *)
Definition never_refused (b : state) (i : json) : option PostgrestError := None.

(** An identity provider that deletes every account it has. *)
Definition no_account_refused (b : state) (u : string) : option AuthError := None.



(** A store whose [organizations] rows are still referenced through a
    foreign key that does not cascade. *)
Definition foreign_key_violation : PostgrestError :=
  mkPostgrestError
    "update or delete on table organizations violates foreign key constraint"
    "Key is still referenced from another table." "" "23503".

Definition always_refused (b : state) (i : json) : option PostgrestError :=
  Some foreign_key_violation.

(** Foreign keys that cascade. *)
Definition cascade_account (rows : list ProfileRow) (u : string) : list ProfileRow :=
  filter (fun r => negb (eq_filter (JString u) (row_user_id r))) rows.

Definition cascade_organization (rows : list ProfileRow) (i : json) : list ProfileRow :=
  filter (fun r => negb (eq_filter i (row_current_organization_id r))) rows.

End Backend.

(** ** A deployment to run scenarios on *)

Module Scenario.

Definition env : DenoEnv :=
  mkDenoEnv (Some "https://project.supabase.co") (Some "anon-key")
            (Some "service-role-key").

Definition env_without_secret : DenoEnv :=
  mkDenoEnv (Some "https://project.supabase.co") (Some "anon-key") None.

Definition sessions : list (string * string) :=
  [ ("Bearer admin-token", "admin-1"); ("Bearer staff-token", "staff-1") ].

(** One super admin, one manager of another organization, and [org-1] with
    its two employees. *)
Definition backend : Backend.state :=
  Backend.mkState sessions
    [ "admin-1"; "staff-1"; "u1"; "u2" ]
    [ Backend.mkProfileRow (Some "admin-1") (Some "super_admin") None;
      Backend.mkProfileRow (Some "staff-1") (Some "manager") (Some "org-2");
      Backend.mkProfileRow (Some "u1") (Some "employee") (Some "org-1");
      Backend.mkProfileRow (Some "u2") (Some "employee") (Some "org-1") ]
    [ mkOrganization "org-1" "Acme"; mkOrganization "org-2" "Globex" ].

(** [org-1] with a profile whose identity account is already gone and a
    profile that never had one. *)
Definition backend_with_stale_profiles : Backend.state :=
  Backend.mkState sessions
    [ "admin-1" ]
    [ Backend.mkProfileRow (Some "admin-1") (Some "super_admin") None;
      Backend.mkProfileRow (Some "u1") (Some "employee") (Some "org-1");
      Backend.mkProfileRow None (Some "employee") (Some "org-1") ]
    [ mkOrganization "org-1" "Acme" ].

Definition with_organizationId (oid : string) : string + json :=
  inr (JObject [ ("organizationId", JString oid) ]).

Definition delete_org1 : Request :=
  mkRequest "POST" (Some "Bearer admin-token") (with_organizationId "org-1").

Definition delete_unknown : Request :=
  mkRequest "POST" (Some "Bearer admin-token") (with_organizationId "org-404").

Definition without_id : Request :=
  mkRequest "POST" (Some "Bearer admin-token") (inr (JObject [])).

Definition anonymous_garbage : Request :=
  mkRequest "POST" None (inl "Unexpected end of JSON input").

Definition staff_garbage : Request :=
  mkRequest "POST" (Some "Bearer staff-token") (inl "Unexpected end of JSON input").

(** Against a store whose foreign keys cascade and that deletes what it is
    asked to. *)
Definition run (env : DenoEnv) (req : Request) (b : Backend.state)
  : trace * outcome Response * Backend.state :=
  Backend.invoke Backend.cascade_account Backend.cascade_organization
                 Backend.never_refused Backend.no_account_refused env req b.

(** Against a store that refuses to delete organizations. *)
Definition run_refused (env : DenoEnv) (req : Request) (b : Backend.state)
  : trace * outcome Response * Backend.state :=
  Backend.invoke Backend.cascade_account Backend.cascade_organization
                 Backend.always_refused Backend.no_account_refused env req b.

End Scenario.

(** ** More views of a trace *)

(** The creation of [supabaseAdmin], with the URL and the key it was given. *)
Definition admin_client_creation (c : call) : option (string * string) :=
  match c with
  | Call (CreateAdminClient url key) _ => Some (url, key)
  | _ => None
  end.

(** The credential a call to [auth.getUser()] was made with. *)
Definition identity_request (c : call) : option (option string) :=
  match c with
  | Call (AuthGetUser a) _ => Some a
  | _ => None
  end.

(** The credential and the user id a role lookup was made with. *)
Definition role_lookup (c : call) : option (option string * string) :=
  match c with
  | Call (SelectProfileRole a u) _ => Some (a, u)
  | _ => None
  end.

(** The [console.error] of line 111. *)
Definition deletion_failure_log (c : call) : option (json * AuthError) :=
  match c with
  | Call (ConsoleError (FailedToDeleteAuthUser u e)) _ => Some (u, e)
  | _ => None
  end.

(** The account deletions that answered with an error. *)
Fixpoint failed_deletions (l : list (json * option AuthError)) : list (json * AuthError) :=
  match l with
  | [] => []
  | (u, Some e) :: l' => (u, e) :: failed_deletions l'
  | (_, None) :: l' => failed_deletions l'
  end.

Definition is_organization_delete (c : call) : bool :=
  match call_event c with
  | DeleteOrganization _ => true
  | _ => false
  end.

(** The calls up to the organization delete, and those after it. *)
Fixpoint before_organization_delete (t : trace) : trace :=
  match t with
  | [] => []
  | c :: t' =>
      if is_organization_delete c then [] else c :: before_organization_delete t'
  end.

Fixpoint after_organization_delete (t : trace) : trace :=
  match t with
  | [] => []
  | c :: t' =>
      if is_organization_delete c then t' else after_organization_delete t'
  end.

(** The profiles an enumeration answered with: none when it has no data. *)
Definition enumerated (res : QueryResult (list LinkedUser)) : list LinkedUser :=
  match data res with
  | Some users => users
  | None => []
  end.

(** What went to [console.error]. *)
Definition error_log (c : call) : option LogEntry :=
  match c with
  | Call (ConsoleError entry) _ => Some entry
  | _ => None
  end.

(** ** Views of the backend *)

(** The calls that can change the backend. *)
Definition mutation (c : call) : bool :=
  match call_event c with
  | AdminDeleteUser _ => true
  | DeleteOrganization _ => true
  | _ => false
  end.




(** ** The companies table of the dashboard ([CompanyTable.tsx])

    The component that calls the edge function.  Its state is the tuple of
    its [useState] cells; a handler maps the state its closure captured to
    the state after its updates, and lists what it sent out (the function
    call, the console, the alerts).  The rows of [organizations] are typed
    as the [select] of [fetchCompanies] shapes them, with [id], [name] and
    [created_at] present as the [Company] interface has them. *)

Module Dashboard.

Record SubscriptionDetails : Type := mkSubscriptionDetails {
  details_plan_name : option string;
  details_status : option string
}.

(** The object [fetchCompanies] builds for each organization. *)
Record Company : Type := mkCompany {
  id : string;
  company_name : string;
  email : string;
  phone : option string;
  subscription_plan : option string;
  subscription_status : option string;
  status : string;
  created_at : string;
  subscription_details : option SubscriptionDetails
}.

Record PlanRow : Type := mkPlanRow { plan_name : option string }.

Record SubscriptionRow : Type := mkSubscriptionRow {
  sub_status : option string;
  plan : option PlanRow
}.

Record OrganizationRow : Type := mkOrganizationRow {
  row_id : string;
  row_name : string;
  row_email : option string;
  row_phone : option string;
  row_is_active : option bool;
  row_created_at : string;
  organization_subscriptions : option (list SubscriptionRow)
}.

(** [a || d] on a string that may be [null]. *)
Definition or_else (a : option string) (d : string) : string :=
  match a with
  | Some s => if String.eqb s "" then d else s
  | None => d
  end.

(** The callback of [data.map] in [fetchCompanies] (lines 46-68). *)
Definition mapCompany (org : OrganizationRow) : Company :=
  let subscription :=
    match organization_subscriptions org with
    | Some (s :: _) => Some s
    | _ => None
    end in
  let plan :=
    match subscription with
    | Some s => plan s
    | None => None
    end in
  mkCompany
    (row_id org)
    (row_name org)
    (or_else (row_email org) "N/A")
    (Some (or_else (row_phone org) "N/A"))
    (Some (or_else (match plan with Some p => plan_name p | None => None end) "Free"))
    (Some (or_else (match subscription with Some s => sub_status s | None => None end)
                   "active"))
    (match row_is_active org with Some true => "active" | _ => "suspended" end)
    (row_created_at org)
    (match plan, subscription with
     | Some p, Some s => Some (mkSubscriptionDetails (plan_name p) (sub_status s))
     | _, _ => None
     end).

Definition getStatusColor (status : string) : string :=
  if String.eqb status "active" then "bg-green-100 text-green-800"
  else if String.eqb status "inactive" then "bg-gray-100 text-gray-800"
  else if String.eqb status "suspended" then "bg-red-100 text-red-800"
  else "bg-gray-100 text-gray-800".

Definition getPlanColor (plan : string) : string :=
  if String.eqb plan "Pro" then "bg-blue-100 text-blue-800"
  else if String.eqb plan "Basic" then "bg-green-100 text-green-800"
  else if String.eqb plan "Free" then "bg-gray-100 text-gray-800"
  else "bg-gray-100 text-gray-800".

(** The [useState] cells of the component. *)
Record state : Type := mkState {
  companies : list Company;
  loading : bool;
  searchTerm : string;
  deleteModalOpen : bool;
  companyToDelete : option Company;
  isDeleting : bool
}.

Definition initial : state := mkState [] true "" false None false.

(** [handleDeleteClick] (lines 81-84) *)
Definition handleDeleteClick (s : state) (company : Company) : state :=
  mkState (companies s) (loading s) (searchTerm s) true (Some company) (isDeleting s).

(** The modal's [onClose] (line 307) *)
Definition closeDeleteModal (s : state) : state :=
  mkState (companies s) (loading s) (searchTerm s) false (companyToDelete s)
          (isDeleting s).

(** The search box's [onChange] *)
Definition setSearchTerm (s : state) (term : string) : state :=
  mkState (companies s) (loading s) term (deleteModalOpen s) (companyToDelete s)
          (isDeleting s).

(** [fetchCompanies] once its query has answered: with rows the list is
    replaced by their images, and [loading] ends either way. *)
Definition fetchCompanies (s : state) (rows : option (list OrganizationRow)) : state :=
  mkState
    (match rows with
     | Some data => map mapCompany data
     | None => companies s
     end)
    false (searchTerm s) (deleteModalOpen s) (companyToDelete s) (isDeleting s).

(** The error [supabase.functions.invoke] resolves with: its message, and,
    when its [context] is a [Response], what [context.json()] resolves to
    ([inl]: it rejects). *)
Record FunctionsError : Type := mkFunctionsError {
  fe_message : string;
  fe_context : option (string + json)
}.

Inductive AlertText : Type :=
| ErrorColon (errorMessage : json)     (* `Error: ${errorMessage}` *)
| Literal (text : string).

Inductive effect : Type :=
| Invoke (functionName : string) (body : json)
| ContextJson
| ConsoleErrorDetails (error : FunctionsError)
| ConsoleErrorDeleting (error : FunctionsError)
| Alert (text : AlertText).


Definition invocations (l : list effect) : list (string * json) :=
  flat_map (fun e => match e with Invoke f b => [(f, b)] | _ => [] end) l.

(** The inner [try] of [confirmDelete] (lines 98-109): the message to show
    and whether [context.json()] was awaited. *)
Definition errorMessage_of (error : FunctionsError) : list effect * json :=
  match fe_context error with
  | Some (inr body) =>
      ([ContextJson],
       match get_property body "error" with
       | Some v => if truthy_value v
                   then match v with Some j => j | None => JNull end
                   else JString "Failed to delete company."
       | None => JString (fe_message error)
       end)
  | Some (inl _) => ([ContextJson], JString (fe_message error))
  | None => ([], JString (fe_message error))
  end.

(** [confirmDelete] (lines 86-126), given what [invoke] resolved with. *)
Definition confirmDelete (s : state) (error : option FunctionsError)
  : list effect * state :=
  match companyToDelete s with
  | None => ([], s)
  | Some selected =>
      let call :=
        Invoke "delete-account" (JObject [ ("organizationId", JString (id selected)) ]) in
      match error with
      | Some err =>
          let (awaited, errorMessage) := errorMessage_of err in
          (call :: awaited
             ++ [ ConsoleErrorDetails err;
                  Alert (ErrorColon errorMessage);
                  ConsoleErrorDeleting err;
                  Alert (Literal
                    "Failed to delete company. Please check console for details.") ],
           mkState (companies s) (loading s) (searchTerm s) (deleteModalOpen s)
                   (companyToDelete s) false)
      | None =>
          ([call],
           mkState
             (filter (fun c => negb (String.eqb (id c) (id selected))) (companies s))
             (loading s) (searchTerm s) false None false)
      end
  end.

(** [searchTerm.includes] on strings *)
Fixpoint includes (s sub : string) : bool :=
  prefix sub s
  || match s with
     | EmptyString => false
     | String _ s' => includes s' sub
     end.

Section Search.

(** [String.prototype.toLowerCase], which follows Unicode's case mapping. *)
Variable toLowerCase : string -> string.

(** [filteredCompanies] (lines 128-132) *)
Definition filteredCompanies (s : state) : list Company :=
  filter
    (fun company =>
       includes (toLowerCase (company_name company)) (toLowerCase (searchTerm s))
       || includes (toLowerCase (email company)) (toLowerCase (searchTerm s)))
    (companies s).

End Search.

(** The states the component can be in. *)
Inductive reachable : state -> Prop :=
| reach_initial : reachable initial
| reach_fetch s rows : reachable s -> reachable (fetchCompanies s rows)
| reach_search s term : reachable s -> reachable (setSearchTerm s term)
| reach_click s company : reachable s -> reachable (handleDeleteClick s company)
| reach_close s : reachable s -> reachable (closeDeleteModal s)
| reach_confirm s error : reachable s -> reachable (snd (confirmDelete s error)).

End Dashboard.

(** ** More scenarios *)

Module Demo.

Definition preflight : Request :=
  mkRequest "OPTIONS" None (inl "Unexpected end of JSON input").



(** The super admin deletes [org-1]. *)
Definition deletion : trace * outcome Response * Backend.state :=
  Scenario.run Scenario.env Scenario.delete_org1 Scenario.backend.

(** The same request when the function has no service-role secret. *)
Definition unconfigured : trace * outcome Response * Backend.state :=
  Scenario.run Scenario.env_without_secret Scenario.delete_org1 Scenario.backend.


(** The super admin deletes [org-1] when one linked account is already
    gone. *)
Definition stale_deletion : trace * outcome Response * Backend.state :=
  Scenario.run Scenario.env Scenario.delete_org1 Scenario.backend_with_stale_profiles.

(** The super admin names an organization that does not exist. *)
Definition unknown_deletion : trace * outcome Response * Backend.state :=
  Scenario.run Scenario.env Scenario.delete_unknown Scenario.backend.

(** The super admin deletes [org-1] from a store that refuses. *)
Definition refused_deletion : trace * outcome Response * Backend.state :=
  Scenario.run_refused Scenario.env Scenario.delete_org1 Scenario.backend.



(** Two rows as [fetchCompanies] receives them. *)
Definition acme_row : Dashboard.OrganizationRow :=
  Dashboard.mkOrganizationRow "org-1" "Acme" (Some "ops@acme.test") None (Some true)
    "2025-01-10T09:00:00Z"
    (Some [ Dashboard.mkSubscriptionRow (Some "trialing")
              (Some (Dashboard.mkPlanRow (Some "Pro"))) ]).

Definition globex_row : Dashboard.OrganizationRow :=
  Dashboard.mkOrganizationRow "org-2" "Globex" None (Some "") None
    "2025-02-01T12:00:00Z" (Some []).

Definition acme : Dashboard.Company := Dashboard.mapCompany acme_row.

(** The table after the rows arrived and the delete icon of Acme was
    clicked. *)
Definition table : Dashboard.state :=
  Dashboard.handleDeleteClick
    (Dashboard.fetchCompanies Dashboard.initial (Some [ acme_row; globex_row ])) acme.





End Demo.

(** * Part II: properties *)

(** ** General facts about runs *)

Section RunFacts.

Context {A B : Type}.

Lemma runs_bind_inv (p : prog A) (k : A -> prog B) t o :
  runs (bind p k) t o ->
  (exists a t1 t2, runs p t1 (Returned a) /\ runs (k a) t2 o /\ t = t1 ++ t2)
  \/ (exists e, runs p t (Thrown e) /\ o = Thrown e).
Proof.
  revert t; induction p as [a | e | X ev c IH]; intros t H; simpl in H.
  - left; exists a, [], t; simpl; auto.
  - destruct H as [-> ->]; right; exists e; simpl; auto.
  - destruct H as (x & t' & -> & H).
    destruct (IH x t' H) as [(a & t1 & t2 & H1 & H2 & ->) | (e & H1 & ->)].
    + left; exists a, (Call ev x :: t1), t2; simpl; eauto 6.
    + right; exists e; simpl; eauto.
Qed.

Lemma runs_bind_returned (p : prog A) (k : A -> prog B) a t1 t2 o :
  runs p t1 (Returned a) -> runs (k a) t2 o -> runs (bind p k) (t1 ++ t2) o.
Proof.
  revert t1; induction p as [a' | e | X ev c IH]; intros t1 H1 H2; simpl in *.
  - destruct H1 as [-> E]; injection E as <-; exact H2.
  - destruct H1 as [_ E]; discriminate E.
  - destruct H1 as (x & t' & -> & H1); exists x, (t' ++ t2); eauto.
Qed.

Lemma runs_bind_thrown (p : prog A) (k : A -> prog B) e t :
  runs p t (Thrown e) -> runs (bind p k) t (Thrown e).
Proof.
  revert t; induction p as [a' | e' | X ev c IH]; intros t H; simpl in *.
  - destruct H as [_ E]; discriminate E.
  - destruct H as [-> E]; injection E as <-; auto.
  - destruct H as (x & t' & -> & H); eauto.
Qed.

End RunFacts.

Section CatchFacts.

Context {A : Type}.

Lemma runs_try_catch_inv (p : prog A) (h : Exception -> prog A) t o :
  runs (try_catch p h) t o ->
  (exists a, runs p t (Returned a) /\ o = Returned a)
  \/ (exists e t1 t2, runs p t1 (Thrown e) /\ runs (h e) t2 o /\ t = t1 ++ t2).
Proof.
  revert t; induction p as [a | e | X ev c IH]; intros t H; simpl in H.
  - destruct H as [-> ->]; left; exists a; simpl; auto.
  - right; exists e, [], t; simpl; auto.
  - destruct H as (x & t' & -> & H).
    destruct (IH x t' H) as [(a & H1 & ->) | (e & t1 & t2 & H1 & H2 & ->)].
    + left; exists a; simpl; eauto.
    + right; exists e, (Call ev x :: t1), t2; simpl; eauto 7.
Qed.

Lemma runs_try_catch_returned (p : prog A) (h : Exception -> prog A) t a :
  runs p t (Returned a) -> runs (try_catch p h) t (Returned a).
Proof.
  revert t; induction p as [a' | e | X ev c IH]; intros t H; simpl in *.
  - exact H.
  - destruct H as [_ E]; discriminate E.
  - destruct H as (x & t' & -> & H); eauto.
Qed.

Lemma runs_try_catch_thrown (p : prog A) (h : Exception -> prog A) e t1 t2 o :
  runs p t1 (Thrown e) -> runs (h e) t2 o -> runs (try_catch p h) (t1 ++ t2) o.
Proof.
  revert t1; induction p as [a' | e' | X ev c IH]; intros t1 H1 H2; simpl in *.
  - destruct H1 as [_ E]; discriminate E.
  - destruct H1 as [-> E]; injection E as <-; exact H2.
  - destruct H1 as (x & t' & -> & H1); exists x, (t' ++ t2); eauto.
Qed.

End CatchFacts.

Lemma collect_app {A : Type} (f : call -> option A) (t1 t2 : trace) :
  collect f (t1 ++ t2) = collect f t1 ++ collect f t2.
Proof.
  induction t1 as [| c t1 IH]; simpl; [reflexivity |].
  destruct (f c); simpl; now rewrite IH.
Qed.

Lemma strict_neq_string_false (v : value) (s : string) :
  strict_neq_string v s = false <-> v = Some (JString s).
Proof.
  unfold strict_neq_string; split.
  - destruct v as [[ | | | s' | | ] |]; try discriminate.
    rewrite negb_false_iff, String.eqb_eq; now intros ->.
  - intros ->; now rewrite String.eqb_refl.
Qed.

(** ** The purge loop, run *)

Lemma delete_auth_users_cons u rest :
  delete_auth_users (u :: rest) =
  ((if truthy (user_id u) then
      trigger (ConsoleLog (DeletingAuthUser (user_id u))) ;;
      deleteAuthError <- trigger (AdminDeleteUser (user_id u)) ;;
      match deleteAuthError with
      | Some e => trigger (ConsoleError (FailedToDeleteAuthUser (user_id u) e))
      | None => Ret tt
      end
    else Ret tt) ;;
   delete_auth_users rest).
Proof. reflexivity. Qed.

Lemma delete_auth_users_runs_inv users t o :
  runs (delete_auth_users users) t o ->
  o = Returned tt /\
  exists answers,
    List.length answers = List.length (deletable users) /\
    t = purge_calls (deletable users) answers.
Proof.
  revert t; induction users as [| u rest IH]; intros t H.
  - destruct H as [-> ->]; split; [reflexivity | exists []; auto].
  - rewrite delete_auth_users_cons in H. unfold deletable; simpl.
    destruct (truthy (user_id u)); simpl in H.
    + destruct H as ([] & t1 & -> & a & t2 & -> & H).
      destruct a as [e |]; simpl in H.
      * destruct H as ([] & t3 & -> & H).
        destruct (IH _ H) as (-> & answers & Hlen & ->).
        split; [reflexivity |].
        exists (Some e :: answers); simpl; split; [now f_equal | reflexivity].
      * destruct (IH _ H) as (-> & answers & Hlen & ->).
        split; [reflexivity |].
        exists (None :: answers); simpl; split; [now f_equal | reflexivity].
    + apply IH, H.
Qed.

Lemma delete_auth_users_runs users answers :
  List.length answers = List.length (deletable users) ->
  runs (delete_auth_users users) (purge_calls (deletable users) answers) (Returned tt).
Proof.
  revert answers; induction users as [| u rest IH]; intros answers Hlen.
  - simpl; auto.
  - rewrite delete_auth_users_cons. unfold deletable in *; simpl in *.
    destruct (truthy (user_id u)); simpl in *.
    + destruct answers as [| a answers]; [discriminate |].
      injection Hlen as Hlen; simpl.
      exists tt; eexists; split; [reflexivity |].
      exists a; eexists; split; [reflexivity |].
      destruct a as [e |]; simpl.
      * exists tt; eexists; split; [reflexivity |]; now apply IH.
      * now apply IH.
    + now apply IH.
Qed.

Section PurgeCalls.

Variables (ids : list json) (answers : list (option AuthError)).
Hypothesis same_length : List.length answers = List.length ids.

Lemma purge_calls_deletions :
  collect account_deletion (purge_calls ids answers) = combine ids answers.
Proof using same_length.
  revert answers same_length; induction ids as [| u ids' IH];
    intros [| a answers'] Hlen; try discriminate; simpl; [reflexivity |].
  injection Hlen as Hlen.
  destruct a; simpl; now rewrite IH.
Qed.

Lemma purge_calls_attempts :
  map fst (collect account_deletion (purge_calls ids answers)) = ids.
Proof using same_length.
  rewrite purge_calls_deletions.
  revert answers same_length; induction ids as [| u ids' IH];
    intros [| a answers'] Hlen; try discriminate; simpl; [reflexivity |].
  injection Hlen as Hlen; now rewrite IH.
Qed.

End PurgeCalls.

Lemma purge_calls_collect_nil {A : Type} (f : call -> option A) ids answers :
  (forall u a, f (Call (AdminDeleteUser u) a) = None) ->
  (forall entry, f (Call (ConsoleLog entry) tt) = None) ->
  (forall entry, f (Call (ConsoleError entry) tt) = None) ->
  collect f (purge_calls ids answers) = [].
Proof.
  intros Hd Hl He; revert answers; induction ids as [| u ids' IH];
    intros [| a answers']; simpl; try reflexivity.
  rewrite Hl, Hd. destruct a; simpl; [rewrite He |]; apply IH.
Qed.

Lemma purge_calls_filter f ids answers :
  (forall u a, f (Call (AdminDeleteUser u) a) = true) ->
  (forall entry, f (Call (ConsoleLog entry) tt) = false) ->
  (forall entry, f (Call (ConsoleError entry) tt) = false) ->
  List.length answers = List.length ids ->
  filter f (purge_calls ids answers) =
  map (fun ua => Call (AdminDeleteUser (fst ua)) (snd ua)) (combine ids answers).
Proof.
  intros Hd Hl He; revert answers; induction ids as [| u ids' IH];
    intros [| a answers'] Hlen; simpl; try reflexivity; try discriminate.
  injection Hlen as Hlen.
  rewrite Hl, Hd. destruct a; simpl; [rewrite He |]; now rewrite IH.
Qed.

(** ** Inverting runs of the handler *)

Lemma deprovision_inv env req t o :
  runs (deprovision env req) t o ->
  (exists r, runs (deprovision_try env req) t (Returned r) /\ o = Returned r)
  \/ (exists e t',
        runs (deprovision_try env req) t' (Thrown e) /\
        t = t' ++ [edge_error_call e] /\
        o = Returned (failure_response e)).
Proof.
  intros H; apply runs_try_catch_inv in H.
  destruct H as [(r & H & ->) | (e & t1 & t2 & H1 & H2 & ->)]; [left; eauto |].
  right; exists e, t1; simpl in H2.
  destruct H2 as ([] & t' & -> & -> & ->); auto.
Qed.

Lemma deprovision_intro_thrown env req t e :
  runs (deprovision_try env req) t (Thrown e) ->
  runs (deprovision env req) (t ++ [edge_error_call e]) (Returned (failure_response e)).
Proof.
  intros H; unfold deprovision.
  eapply runs_try_catch_thrown; [exact H |].
  simpl; exists tt, []; auto.
Qed.

Lemma deprovision_intro_returned env req t r :
  runs (deprovision_try env req) t (Returned r) ->
  runs (deprovision env req) t (Returned r).
Proof. apply runs_try_catch_returned. Qed.

(** One step of a run: opens the next call, decides the next branch, or
    splits off the purge loop. *)
Ltac run_step H :=
  lazymatch type of H with
  | exists _, _ =>
      let x := fresh "x" in let t := fresh "t" in
      destruct H as (x & t & -> & H);
      try (match type of x with unit => destruct x end)
  | _ = [] /\ _ = _ =>
      let E := fresh "E" in
      destruct H as [-> E];
      first [ discriminate E | injection E as E; subst | subst ]
  | runs (bind (delete_auth_users _) _) _ _ =>
      let a := fresh "a" in let t1 := fresh "t" in let t2 := fresh "t" in
      let H1 := fresh "Hloop" in let e := fresh "e" in
      let answers := fresh "answers" in let Hlen := fresh "Hlen" in
      apply runs_bind_inv in H;
      destruct H as [(a & t1 & t2 & H1 & H & ->) | (e & H1 & _)];
      [ apply delete_auth_users_runs_inv in H1; destruct H1 as (_ & answers & Hlen & ->)
      | apply delete_auth_users_runs_inv in H1; destruct H1 as (H1 & _); discriminate H1 ]
  | runs (match ?x with _ => _ end) _ _ => destruct x eqn:?
  | runs (bind (match ?x with _ => _ end) _) _ _ => destruct x eqn:?
  | runs (try_catch (match ?x with _ => _ end) _) _ _ => destruct x eqn:?
  | runs (try_catch (bind (match ?x with _ => _ end) _) _) _ _ => destruct x eqn:?
  | runs (bind (try_catch (match ?x with _ => _ end) _) _) _ _ => destruct x eqn:?
  | runs (bind (try_catch (bind (match ?x with _ => _ end) _) _) _) _ _ => destruct x eqn:?
  | runs (if ?x then _ else _) _ _ => destruct x eqn:?
  | _ => progress cbn [runs bind try_catch trigger] in H
  end.

(** Splits a run of the [try] block into its paths, keeping the run. *)
Ltac try_paths H :=
  let H' := fresh "Hpath" in
  pose proof H as H';
  unfold deprovision_try, read_organizationId in H';
  repeat run_step H'; subst.

(** Evaluates the classifiers over a trace whose only unknown part is the
    purge loop. *)
Ltac trace_simpl :=
  repeat first
    [ progress cbn [collect filter app resolved_identity looked_up_profile
                    organization_lookup enumeration account_deletion
                    organization_deletion privileged store_query reads_body
                    call_event edge_error_call]
    | rewrite collect_app
    | rewrite filter_app
    | rewrite (purge_calls_collect_nil resolved_identity) by reflexivity
    | rewrite (purge_calls_collect_nil looked_up_profile) by reflexivity
    | rewrite (purge_calls_collect_nil organization_lookup) by reflexivity
    | rewrite (purge_calls_collect_nil enumeration) by reflexivity
    | rewrite (purge_calls_collect_nil organization_deletion) by reflexivity
    | rewrite app_nil_r ].

Ltac trace_simpl_in H :=
  repeat first
    [ progress cbn [collect filter app resolved_identity looked_up_profile
                    organization_lookup enumeration account_deletion
                    organization_deletion privileged store_query reads_body
                    call_event edge_error_call In] in H
    | rewrite collect_app in H
    | rewrite filter_app in H
    | rewrite (purge_calls_collect_nil resolved_identity) in H by reflexivity
    | rewrite (purge_calls_collect_nil looked_up_profile) in H by reflexivity
    | rewrite (purge_calls_collect_nil organization_lookup) in H by reflexivity
    | rewrite (purge_calls_collect_nil enumeration) in H by reflexivity
    | rewrite (purge_calls_collect_nil organization_deletion) in H by reflexivity
    | rewrite app_nil_r in H ].

Lemma kind_of_database_error (m : string) :
  kind_of (Error ("Database Error: " ++ m)) = Some NotFound.
Proof. destruct m; reflexivity. Qed.

(** Computes the kind of the exception a path ends with. *)
Ltac kind_solve :=
  cbn;
  repeat match goal with
         | |- context [prefix "" ?m] => destruct m; cbn
         end;
  eauto.

(** Every run of the workflow returns a response: it either succeeds or
    fails with one of the five kinds. *)
Lemma deprovision_outcomes env req t o :
  runs (deprovision env req) t o ->
  succeeds env req t o \/ exists k, fails_with env req t o k.
Proof.
  intros H; apply deprovision_inv in H.
  destruct H as [(r & H & ->) | (e & t' & H & -> & ->)].
  - left; try_paths H; split; auto.
  - right.
    assert (K : exists k, kind_of e = Some k)
      by (try_paths H; kind_solve).
    destruct K as (k & K); exists k, e, t'; auto.
Qed.

(** The workflow never lets an exception escape: every run returns a
    response. *)
Lemma deprovision_always_responds env req t o :
  runs (deprovision env req) t o -> exists resp, o = Returned resp.
Proof.
  intros H; destruct (deprovision_outcomes H) as [(_ & ->) | (k & e & t' & _ & _ & _ & ->)];
    eauto.
Qed.

(** ** Authentication and authorization come first *)

(** When the caller is not resolved or is not a super admin, the [try] block
    ends at one of its first two [throw]s: nothing privileged was called and
    the body was not read. *)
Lemma authorization_refused env req t o :
  runs (deprovision_try env req) t o ->
  caller_unresolved t \/ caller_under_privileged t ->
  (exists e, o = Thrown e /\ kind_of e = Some Unauthorized) /\
  filter privileged t = [] /\
  filter reads_body t = [].
Proof.
  intros H Hc.
  try_paths H.
  all: unfold caller_unresolved, caller_under_privileged, is_super_admin in Hc.
  all: trace_simpl_in Hc.
  all: try rewrite strict_neq_string_false in *.
  all: try (destruct Hc as [[Hc | []] | (prof & [Hc | []] & Hn)];
            [discriminate Hc | subst prof; contradiction]).
  all: repeat split; eauto.
Qed.

Lemma collect_snoc_edge_error {A : Type} (f : call -> option A) t e :
  f (edge_error_call e) = None ->
  collect f (t ++ [edge_error_call e]) = collect f t.
Proof.
  intros Hf; rewrite collect_app; simpl; rewrite Hf; apply app_nil_r.
Qed.

Lemma filter_snoc_edge_error (f : call -> bool) t e :
  f (edge_error_call e) = false ->
  filter f (t ++ [edge_error_call e]) = filter f t.
Proof.
  intros Hf; rewrite filter_app; simpl; rewrite Hf; apply app_nil_r.
Qed.

Lemma filter_privileged_collect t :
  filter privileged t = [] ->
  collect account_deletion t = [] /\ collect organization_deletion t = [].
Proof.
  induction t as [| [X ev x] t IH]; simpl; [auto |].
  destruct ev; simpl; try discriminate; auto.
Qed.

(** C1.  Whenever the caller's token resolves to no identity, or the role
    lookup answers with no profile or with a role other than [super_admin],
    the workflow fails with [Unauthorized] and its run contains no
    privileged call: the service-role client is not created and no account
    deletion or organization deletion is issued. *)
Theorem unauthorized_caller_no_privileged_call env req t o :
  runs (deprovision env req) t o ->
  caller_unresolved t \/ caller_under_privileged t ->
  fails_with env req t o Unauthorized /\
  filter privileged t = [] /\
  collect account_deletion t = [] /\
  collect organization_deletion t = [].
Proof.
  intros H Hc. apply deprovision_inv in H.
  destruct H as [(r & H & ->) | (e & t' & H & -> & ->)].
  - destruct (authorization_refused H Hc) as ((e & E & _) & _); discriminate E.
  - unfold caller_unresolved, caller_under_privileged in Hc.
    rewrite !collect_snoc_edge_error in Hc by reflexivity.
    destruct (authorization_refused H Hc) as ((e' & E & K) & Hpriv & _).
    injection E as <-.
    assert (P : filter privileged (t' ++ [edge_error_call e]) = [])
      by (rewrite filter_snoc_edge_error by reflexivity; exact Hpriv).
    split; [exists e, t'; auto |].
    split; [exact P |].
    apply filter_privileged_collect, P.
Qed.

(** ** Interpreted runs are runs *)

Lemma interp_runs {S R : Type} (h : forall X, event X -> S -> X * S)
    (p : prog R) (s : S) :
  runs p (fst (fst (interp h p s))) (snd (fst (interp h p s))).
Proof.
  revert s; induction p as [r | e | X ev k IH]; intros s; simpl; auto.
  destruct (h X ev s) as [x s1].
  specialize (IH x s1).
  destruct (interp h (k x) s1) as [[t o] s2]; simpl in *.
  exists x, t; auto.
Qed.


(** ** Messages and kinds *)

Lemma kind_of_unauthorized e :
  kind_of e = Some Unauthorized ->
  e = Error "Unauthorized" \/
  e = Error "Unauthorized: Only Super Admins can perform this action".
Proof.
  destruct e as [m | m | m | pe]; simpl; try discriminate.
  destruct (m =? "Unauthorized") eqn:E1;
    [apply String.eqb_eq in E1; subst; auto |].
  destruct (m =? "Unauthorized: Only Super Admins can perform this action") eqn:E2;
    [apply String.eqb_eq in E2; subst; auto |].
  simpl; intros K.
  repeat match type of K with
         | context [if ?b then _ else _] => destruct b
         end; discriminate K.
Qed.

Lemma kind_of_invalid_request e :
  kind_of e = Some InvalidRequest ->
  e = Error "Invalid request body" \/ e = Error "Organization ID is required".
Proof.
  destruct e as [m | m | m | pe]; simpl; try discriminate.
  destruct ((m =? "Unauthorized")
            || (m =? "Unauthorized: Only Super Admins can perform this action"));
    [intros K; discriminate K |].
  destruct (m =? "Invalid request body") eqn:E1;
    [apply String.eqb_eq in E1; subst; auto |].
  destruct (m =? "Organization ID is required") eqn:E2;
    [apply String.eqb_eq in E2; subst; auto |].
  simpl; intros K.
  repeat match type of K with
         | context [if ?b then _ else _] => destruct b
         end; discriminate K.
Qed.

(** C9.  The caller is authenticated and authorized before the request body
    is read: when the caller is unresolved or under-privileged the workflow
    fails with [Unauthorized] whatever the body is (unparseable, [null],
    without [organizationId]), [req.json()] is never called, and the
    response is never that of an [InvalidRequest] failure. *)
Theorem unauthorized_before_body_is_read env req t o :
  runs (deprovision env req) t o ->
  caller_unresolved t \/ caller_under_privileged t ->
  fails_with env req t o Unauthorized /\
  filter reads_body t = [] /\
  (forall e, kind_of e = Some InvalidRequest -> o <> Returned (failure_response e)).
Proof.
  intros H Hc. apply deprovision_inv in H.
  destruct H as [(r & H & ->) | (e & t' & H & -> & ->)].
  - destruct (authorization_refused H Hc) as ((e & E & _) & _); discriminate E.
  - unfold caller_unresolved, caller_under_privileged in Hc.
    rewrite !collect_snoc_edge_error in Hc by reflexivity.
    destruct (authorization_refused H Hc) as ((e' & E & K) & _ & Hbody).
    injection E as <-.
    split; [exists e, t'; auto |].
    split; [rewrite filter_snoc_edge_error by reflexivity; exact Hbody |].
    intros e2 K2 E2. injection E2 as E2.
    apply kind_of_unauthorized in K; apply kind_of_invalid_request in K2.
    destruct K as [-> | ->], K2 as [-> | ->]; discriminate E2.
Qed.

(** ** The final delete *)

(** C3.  Whenever a run reaches the organization delete and that call
    answers with an error, the workflow fails with [DeletionFailed]: the
    caller receives the failure envelope, a response with status 400, the
    CORS and JSON headers and a body whose [error] is that error's message
    and whose [details] is the fixed text, whatever the account deletions
    before it answered. *)
Theorem organization_delete_failure_is_fatal env req t o i e :
  runs (deprovision env req) t o ->
  In (i, Some e) (collect organization_deletion t) ->
  fails_with env req t o DeletionFailed /\
  o = Returned
        (mkResponse 400
           [ ("Access-Control-Allow-Origin", "*");
             ("Access-Control-Allow-Headers",
              "authorization, x-client-info, apikey, content-type");
             ("Content-Type", "application/json") ]
           (BodyJson (JObject
              [ ("error", JString (pg_message e));
                ("details", JString "Check Supabase Function Logs for more info") ]))).
Proof.
  intros H Hd. apply deprovision_inv in H.
  destruct H as [(r & H & ->) | (e' & t' & H & -> & ->)].
  - try_paths H; trace_simpl_in Hd; try contradiction.
    all: destruct Hd as [Hd | []]; discriminate Hd.
  - rewrite collect_snoc_edge_error in Hd by reflexivity.
    assert (E : e' = ThrownPostgrestError e).
    { try_paths H; trace_simpl_in Hd; try contradiction.
      all: destruct Hd as [Hd | []]; now injection Hd as _ ->. }
    subst e'. split; [exists (ThrownPostgrestError e), t'; auto | reflexivity].
Qed.

(** ** The failure envelope *)

(** C5.  Every invocation that does not succeed fails with one of the five
    kinds, and whatever the kind the response has status 400 and a JSON body
    with exactly the string fields [error] (the message of the exception) and
    [details]; the kind does not show in the response otherwise: two
    failures with the same message get the same response. *)
Theorem failures_share_one_envelope env req t o :
  runs (deprovision env req) t o ->
  ~ succeeds env req t o ->
  exists k e,
    fails_with env req t o k /\
    kind_of e = Some k /\
    o = Returned
          (mkResponse 400 json_headers
             (BodyJson (JObject
                [ ("error", JString (error_message e));
                  ("details", JString "Check Supabase Function Logs for more info") ]))) /\
    (forall k' e', kind_of e' = Some k' ->
       status (failure_response e') = 400 /\
       (error_message e' = error_message e ->
        Returned (failure_response e') = o)).
Proof.
  intros H Hn.
  destruct (deprovision_outcomes H) as [Hs | (k & Hf)]; [contradiction |].
  pose proof Hf as (e & t' & Hrun & K & -> & ->).
  exists k, e; repeat split; auto.
  intros E; unfold failure_response; now rewrite E.
Qed.

Lemma try_block_message env req t e :
  runs (deprovision_try env req) t (Thrown e) ->
  message_source t (error_message e).
Proof.
  intros H; unfold message_source, fixed_messages.
  try_paths H; trace_simpl.
  all: first
    [ left; simpl; tauto
    | right; left; do 3 eexists; split; [left; reflexivity | split; eauto; reflexivity]
    | right; right; do 2 eexists; split; [left; reflexivity | reflexivity] ].
Qed.

Lemma message_source_snoc t e m :
  message_source t m -> message_source (t ++ [edge_error_call e]) m.
Proof.
  unfold message_source.
  now rewrite !collect_snoc_edge_error by reflexivity.
Qed.

(** C10.  A response other than the success response is the failure
    envelope: its body holds the two fields [error] and [details] and nothing
    else, [details] is the constant text, and [error] is a message of the
    handler's own or the message of the organization lookup's or the
    organization delete's error; what the account deletions answered is not
    part of it. *)
Theorem failure_details_are_constant env req t o :
  runs (deprovision env req) t o ->
  ~ succeeds env req t o ->
  exists m,
    o = Returned
          (mkResponse 400 json_headers
             (BodyJson (JObject
                [ ("error", JString m);
                  ("details", JString "Check Supabase Function Logs for more info") ]))) /\
    message_source t m.
Proof.
  intros H Hn.
  destruct (deprovision_outcomes H) as [Hs | (k & e & t' & Hrun & K & -> & ->)];
    [contradiction |].
  exists (error_message e); split; [reflexivity |].
  apply message_source_snoc, try_block_message with (1 := Hrun).
Qed.

(** ** Resolving the organization *)

(** C7.  Whenever the organization lookup of a run answers with no row or
    with an error, the workflow fails with [NotFound].  A run that has such a
    lookup is one of an authorized caller with a truthy [organizationId],
    and it issues no deletion. *)
Theorem organization_lookup_failure_is_not_found env req t o i r :
  runs (deprovision env req) t o ->
  In (i, r) (collect organization_lookup t) ->
  data r = None \/ error r <> None ->
  fails_with env req t o NotFound /\
  caller_authorized t /\
  organizationId_of req = Some (Some i) /\
  truthy i = true /\
  collect account_deletion t = [] /\
  collect organization_deletion t = [].
Proof.
  intros H Hl Hr. apply deprovision_inv in H.
  unfold caller_authorized, is_super_admin, organizationId_of.
  destruct H as [(r' & H & ->) | (e & t' & H & -> & ->)].
  - exfalso. try_paths H; trace_simpl_in Hl; try contradiction.
    all: destruct Hl as [Hl | []]; injection Hl as <- <-.
    all: destruct Hr as [Hr | Hr]; congruence.
  - rewrite !collect_snoc_edge_error by reflexivity.
    rewrite collect_snoc_edge_error in Hl by reflexivity.
    assert (K : kind_of e = Some NotFound /\
                (exists u, In (Some u) (collect resolved_identity t')) /\
                (exists p, In p (collect looked_up_profile t') /\
                           option_map role p = Some (JString "super_admin")) /\
                match json_body req with
                | inl _ => None
                | inr b => get_property b "organizationId"
                end = Some (Some i) /\
                truthy i = true /\
                collect account_deletion t' = [] /\
                collect organization_deletion t' = []).
    { try_paths H; trace_simpl_in Hl; try contradiction.
      all: destruct Hl as [Hl | []]; injection Hl as <- <-.
      all: try (destruct Hr as [Hr | Hr]; congruence).
      all: rewrite strict_neq_string_false in *.
      all: rewrite negb_false_iff in *.
      all: trace_simpl.
      all: repeat split; eauto; try (simpl; eauto; fail).
      all: apply kind_of_database_error. }
    destruct K as (K & Hu & Hp & Hb & Ht & Ha & Hd).
    repeat split; auto. exists e, t'; auto.
Qed.

(** ** Validating the input *)

(** C6 (as the code has it).  For an authenticated super admin whose request
    carries no usable [organizationId], the workflow fails with
    [InvalidRequest] before anything privileged happens; the one query that
    reached the relational store is the role lookup of the authorization
    step, made with the caller's own credential. *)
Theorem missing_organizationId_is_invalid_request env req t o :
  runs (deprovision env req) t o ->
  caller_authorized t ->
  organizationId_absent req = true ->
  fails_with env req t o InvalidRequest /\
  filter privileged t = [] /\
  exists u p, filter store_query t = [Call (SelectProfileRole (authorization req) u) p].
Proof.
  intros H (Hu & Hp) Hb. apply deprovision_inv in H.
  unfold organizationId_absent, organizationId_of, is_super_admin in *.
  destruct Hu as (u & Hu); destruct Hp as (p & Hp & Hrole).
  destruct H as [(r' & H & ->) | (e & t' & H & -> & ->)].
  - exfalso. try_paths H.
    all: simpl in Hb; congruence.
  - rewrite collect_snoc_edge_error in Hu by reflexivity.
    rewrite collect_snoc_edge_error in Hp by reflexivity.
    rewrite !filter_snoc_edge_error by reflexivity.
    assert (K : kind_of e = Some InvalidRequest /\
                filter privileged t' = [] /\
                exists u p, filter store_query t' =
                            [Call (SelectProfileRole (authorization req) u) p]).
    { try_paths H; trace_simpl_in Hu; trace_simpl_in Hp.
      all: try (destruct Hu as [Hu | []]; discriminate Hu).
      all: try (destruct Hp as [Hp | []]; subst p;
                rewrite <- strict_neq_string_false in Hrole; congruence).
      all: try (split; [reflexivity | split; [reflexivity | do 2 eexists; reflexivity]]).
      all: exfalso; simpl in Hb; congruence. }
    destruct K as (K & Hpriv & Hq).
    repeat split; auto. exists e, t'; auto.
Qed.

(** ** The purge and the final delete *)


(** What a run looks like from the enumeration on. *)
Lemma enumerated_run env req t o i users err :
  runs (deprovision_try env req) t o ->
  In (i, mkQueryResult (Some users) err) (collect enumeration t) ->
  map fst (collect account_deletion t) = deletable users /\
  exists r,
    collect organization_deletion t = [(i, r)] /\
    o = match r with
        | None => Returned success_response
        | Some e => Thrown (ThrownPostgrestError e)
        end.
Proof.
  intros H He.
  try_paths H; trace_simpl_in He; try contradiction.
  all: destruct He as [He | []]; injection He as <- Hx.
  all: match goal with
       | Hd : data ?x = _ |- _ => rewrite Hx in Hd; simpl in Hd
       end.
  all: match goal with
       | Hd : Some _ = Some _ |- _ => injection Hd as Hd; try subst users
       | Hd : Some _ = None |- _ => discriminate Hd
       end.
  all: trace_simpl; cbn [map fst].
  all: try rewrite app_nil_r.
  all: try rewrite purge_calls_attempts by assumption.
  all: split; [reflexivity | eexists; split; reflexivity].
Qed.

(** The same, for the whole workflow. *)
Lemma enumerated_workflow_run env req t o i users err :
  runs (deprovision env req) t o ->
  In (i, mkQueryResult (Some users) err) (collect enumeration t) ->
  map fst (collect account_deletion t) = deletable users /\
  exists r,
    collect organization_deletion t = [(i, r)] /\
    o = match r with
        | None => Returned success_response
        | Some e => Returned (failure_response (ThrownPostgrestError e))
        end.
Proof.
  intros H He. apply deprovision_inv in H.
  destruct H as [(r' & H & ->) | (e & t' & H & -> & ->)].
  - destruct (@enumerated_run _ _ _ _ _ _ _ H He) as (Ha & r & Hd & Ho).
    split; [exact Ha |]. exists r; split; [exact Hd |].
    destruct r; [discriminate Ho | exact Ho].
  - rewrite collect_snoc_edge_error in He by reflexivity.
    rewrite !collect_snoc_edge_error by reflexivity.
    destruct (@enumerated_run _ _ _ _ _ _ _ H He) as (Ha & r & Hd & Ho).
    split; [exact Ha |]. exists r; split; [exact Hd |].
    destruct r; [now injection Ho as -> | discriminate Ho].
Qed.


(** C4.  The end-to-end scenario: the caller holds [super_admin], the body
    carries [organizationId] ["org-1"], the lookup finds the organization,
    the enumeration answers with two profiles whose [user_id]s [u1] and [u2]
    are not empty, every account deletion succeeds and the organization
    delete succeeds.  Then both accounts were asked to be deleted and the
    response is 200 with the success message. *)
Theorem end_to_end_success env req t o org u1 u2 :
  runs (deprovision env req) t o ->
  caller_authorized t ->
  organizationId_of req = Some (Some (JString "org-1")) ->
  In (JString "org-1", mkQueryResult (Some org) None) (collect organization_lookup t) ->
  In (JString "org-1",
      mkQueryResult (Some [mkLinkedUser (JString u1); mkLinkedUser (JString u2)]) None)
     (collect enumeration t) ->
  u1 <> "" -> u2 <> "" ->
  (forall u r, In (u, r) (collect account_deletion t) -> r = None) ->
  In (JString "org-1", None) (collect organization_deletion t) ->
  collect account_deletion t = [(JString u1, None); (JString u2, None)] /\
  o = Returned
        (mkResponse 200 json_headers
           (BodyJson (JObject
              [ ("message",
                 JString "Organization and associated accounts deleted successfully") ]))).
Proof.
  intros H _ _ _ He Hu1 Hu2 Hok Hd.
  destruct (@enumerated_workflow_run _ _ _ _ _ _ _ H He) as (Ha & r & Hr & Ho).
  rewrite Hr in Hd; destruct Hd as [Hd | []]; injection Hd as Hd; subst r.
  split; [| exact Ho].
  unfold deletable in Ha; simpl in Ha.
  apply String.eqb_neq in Hu1, Hu2; rewrite Hu1, Hu2 in Ha; simpl in Ha.
  remember (collect account_deletion t) as ds eqn:E; clear E.
  destruct ds as [| [a1 r1] [| [a2 r2] [| c l]]]; try discriminate Ha.
  injection Ha as -> ->.
  assert (R1 : r1 = None) by (apply (Hok (JString u1)); simpl; auto).
  assert (R2 : r2 = None) by (apply (Hok (JString u2)); simpl; auto).
  now subst.
Qed.

(** ** Two invocations in sequence *)

Lemma interp_exec {S R : Type} (h : forall X, event X -> S -> X * S)
    (p : prog R) (s : S) :
  (snd (fst (interp h p s)), snd (interp h p s)) = exec h p s.
Proof.
  revert s; induction p as [r | e | X ev k IH]; intros s; simpl; auto.
  destruct (h X ev s) as [x s1]. rewrite <- IH.
  now destruct (interp h (k x) s1) as [[t o] s2].
Qed.

Lemma exec_bind {S A B : Type} (h : forall X, event X -> S -> X * S)
    (p : prog A) (k : A -> prog B) (s : S) :
  exec h (bind p k) s =
  match exec h p s with
  | (Returned a, s1) => exec h (k a) s1
  | (Thrown e, s1) => (Thrown e, s1)
  end.
Proof.
  revert s; induction p as [a | e | X ev c IH]; intros s; simpl; auto.
  destruct (h X ev s) as [x s1]; apply IH.
Qed.

Lemma interp_try_catch {S A : Type} (h : forall X, event X -> S -> X * S)
    (p : prog A) (c : Exception -> prog A) (s : S) :
  interp h (try_catch p c) s =
  match interp h p s with
  | (t1, Returned a, s1) => (t1, Returned a, s1)
  | (t1, Thrown e, s1) =>
      let '(t2, o, s2) := interp h (c e) s1 in (t1 ++ t2, o, s2)
  end.
Proof.
  revert s; induction p as [a | e | X ev k IH]; intros s; simpl.
  - reflexivity.
  - now destruct (interp h (c e) s) as [[t2 o] s2].
  - destruct (h X ev s) as [x s1]. rewrite IH.
    destruct (interp h (k x) s1) as [[t1 [a | e]] s2]; [reflexivity |].
    now destruct (interp h (c e) s2) as [[t2 o] s3].
Qed.

Lemma authorized_inv b auth :
  Backend.authorized b auth = true ->
  exists u,
    Backend.resolve b auth = Some u /\
    strict_neq_string (option_map role (data (Backend.select_role b (id u))))
                      "super_admin" = false.
Proof.
  unfold Backend.authorized.
  destruct (Backend.resolve b auth) as [u |]; [| discriminate].
  rewrite negb_true_iff; eauto.
Qed.

Lemma organizationId_of_inv req v :
  organizationId_of req = Some v ->
  exists body, json_body req = inr body /\ get_property body "organizationId" = Some v.
Proof.
  unfold organizationId_of.
  destruct (json_body req) as [m | body]; [discriminate | eauto].
Qed.

Lemma filter_out_then_in {A : Type} (f : A -> bool) (l : list A) :
  filter f (filter (fun a => negb (f a)) l) = [].
Proof.
  induction l as [| a l IH]; simpl; [reflexivity |].
  destruct (f a) eqn:E; simpl; [exact IH | now rewrite E].
Qed.

Section TwoInvocations.

Variable on_account_deleted :
  list Backend.ProfileRow -> string -> list Backend.ProfileRow.
Variable on_organization_deleted :
  list Backend.ProfileRow -> json -> list Backend.ProfileRow.
Variable delete_refused : Backend.state -> json -> option PostgrestError.
Variable account_refused : Backend.state -> string -> option AuthError.

Local Abbreviation answer :=
  (Backend.answer on_account_deleted on_organization_deleted
                  delete_refused account_refused).
Local Abbreviation invoke :=
  (Backend.invoke on_account_deleted on_organization_deleted
                  delete_refused account_refused).

Ltac backend_step :=
  cbn [exec bind try_catch trigger Backend.answer negb truthy
       Backend.single data error].

Lemma purge_keeps_organizations users b :
  exists b',
    exec answer (delete_auth_users users) b = (Returned tt, b') /\
    Backend.organizations b' = Backend.organizations b.
Proof.
  revert b; induction users as [| u users IH]; intros b.
  - exists b; auto.
  - rewrite delete_auth_users_cons, exec_bind.
    destruct (truthy (user_id u)); [| apply IH].
    backend_step. unfold Backend.delete_account.
    destruct (user_id u) as [ | | | s | | ]; cbn; try apply IH.
    destruct (account_refused b s); cbn; [apply IH |].
    destruct (Backend.has_account b s); cbn; [| apply IH].
    match goal with
    | |- context [exec _ (delete_auth_users users) ?b0] =>
        destruct (IH b0) as (b' & -> & E)
    end.
    exists b'; split; [reflexivity | exact E].
Qed.

(** On a deployment with its secret, an authorized caller naming an existing
    organization gets it deleted. *)
Lemma first_invocation env req b oid key :
  SERVICE_ROLE_KEY env = Some key -> key <> "" ->
  (forall s, delete_refused s (JString oid) = None) ->
  Backend.references b oid ->
  organizationId_of req = Some (Some (JString oid)) ->
  Backend.authorized b (authorization req) = true ->
  exists b',
    exec answer (deprovision_try env req) b = (Returned success_response, b') /\
    Backend.organizations b' =
      filter (fun o => negb (Backend.eq_filter (JString oid) (Some (org_id o))))
             (Backend.organizations b).
Proof.
  intros Hkey Hk Hdel (Hoid & org & Horg) Hbody Hauth.
  apply authorized_inv in Hauth as (u & Hu & Hrole).
  apply organizationId_of_inv in Hbody as (body & Hb & Hg).
  apply String.eqb_neq in Hk, Hoid.
  unfold deprovision_try, read_organizationId.
  backend_step. rewrite Hu. backend_step. rewrite Hrole, Hb. backend_step.
  rewrite Hg. backend_step. rewrite Hoid, Hkey. backend_step.
  rewrite Hk. backend_step.
  unfold Backend.select_organization. rewrite Horg. backend_step.
  unfold Backend.select_linked_users at 1. backend_step.
  rewrite exec_bind.
  assert (P : exists b1,
             exec answer
               match data (Backend.select_linked_users b (JString oid)) with
               | Some ((_ :: _) as users) => delete_auth_users users
               | _ => Ret tt
               end b = (Returned tt, b1) /\
             Backend.organizations b1 = Backend.organizations b).
  { destruct (data (Backend.select_linked_users b (JString oid))) as [[| u0 us] |].
    - exists b; auto.
    - apply purge_keeps_organizations.
    - exists b; auto. }
  destruct P as (b1 & -> & E).
  backend_step. unfold Backend.delete_organization. rewrite Hdel. backend_step.
  eexists; split; [reflexivity |]. simpl. now rewrite E.
Qed.

(** Once the organization is gone, an authorized caller naming it gets the
    lookup's error back. *)
Lemma later_invocation env req b oid key :
  SERVICE_ROLE_KEY env = Some key -> key <> "" -> oid <> "" ->
  filter (fun o => Backend.eq_filter (JString oid) (Some (org_id o)))
         (Backend.organizations b) = [] ->
  organizationId_of req = Some (Some (JString oid)) ->
  Backend.authorized b (authorization req) = true ->
  exec answer (deprovision_try env req) b =
  (Thrown (Error ("Database Error: " ++ pg_message Backend.no_single_row)), b).
Proof.
  intros Hkey Hk Hoid Horg Hbody Hauth.
  apply authorized_inv in Hauth as (u & Hu & Hrole).
  apply organizationId_of_inv in Hbody as (body & Hb & Hg).
  apply String.eqb_neq in Hk, Hoid.
  unfold deprovision_try, read_organizationId.
  backend_step. rewrite Hu. backend_step. rewrite Hrole, Hb. backend_step.
  rewrite Hg. backend_step. rewrite Hoid, Hkey. backend_step.
  rewrite Hk. backend_step.
  unfold Backend.select_organization. rewrite Horg. backend_step.
  reflexivity.
Qed.

(** The response and the trace of an invocation, from what its [try] block
    did. *)
Lemma invoke_returned env req b r b' :
  exec answer (deprovision_try env req) b = (Returned r, b') ->
  let i := invoke env req b in
  runs (deprovision_try env req) (fst (fst i)) (Returned r) /\
  snd (fst i) = Returned r /\ snd i = b'.
Proof.
  intros E; unfold Backend.invoke, deprovision.
  rewrite interp_try_catch.
  pose proof (interp_runs answer (deprovision_try env req) b) as R.
  rewrite <- interp_exec in E.
  destruct (interp answer (deprovision_try env req) b) as [[t o] s].
  simpl in *. injection E as -> ->. auto.
Qed.

Lemma invoke_thrown env req b e b' :
  exec answer (deprovision_try env req) b = (Thrown e, b') ->
  let i := invoke env req b in
  exists t',
    runs (deprovision_try env req) t' (Thrown e) /\
    fst (fst i) = t' ++ [edge_error_call e] /\
    snd (fst i) = Returned (failure_response e) /\ snd i = b'.
Proof.
  intros E; unfold Backend.invoke, deprovision.
  rewrite interp_try_catch.
  pose proof (interp_runs answer (deprovision_try env req) b) as R.
  rewrite <- interp_exec in E.
  destruct (interp answer (deprovision_try env req) b) as [[t o] s].
  simpl in *. injection E as -> ->. exists t; auto.
Qed.

End TwoInvocations.

(** C8 (as the code has it).  On a deployment whose service-role secret is
    set and whose store does not refuse the delete, for an [organizationId]
    that references an organization of the store: two invocations in
    sequence, each by a caller who is an authorized super admin when it is
    made, end with success for the first and with [NotFound] for the second,
    whatever the store does to the profiles of a deleted account or
    organization and whichever account deletions the identity provider
    refuses. *)
Theorem delete_twice_success_then_not_found
    (on_account_deleted : list Backend.ProfileRow -> string -> list Backend.ProfileRow)
    (on_organization_deleted : list Backend.ProfileRow -> json -> list Backend.ProfileRow)
    (delete_refused : Backend.state -> json -> option PostgrestError)
    (account_refused : Backend.state -> string -> option AuthError)
    env b req1 req2 oid key :
  SERVICE_ROLE_KEY env = Some key -> key <> "" ->
  (forall s, delete_refused s (JString oid) = None) ->
  Backend.references b oid ->
  organizationId_of req1 = Some (Some (JString oid)) ->
  organizationId_of req2 = Some (Some (JString oid)) ->
  Backend.authorized b (authorization req1) = true ->
  let first :=
    Backend.invoke on_account_deleted on_organization_deleted
                   delete_refused account_refused
                   env req1 b in
  Backend.authorized (Backend.state_of first) (authorization req2) = true ->
  let second :=
    Backend.invoke on_account_deleted on_organization_deleted
                   delete_refused account_refused
                   env req2 (Backend.state_of first) in
  succeeds env req1 (Backend.trace_of first) (Backend.outcome_of first) /\
  fails_with env req2 (Backend.trace_of second) (Backend.outcome_of second) NotFound.
Proof.
  intros Hkey Hk Hdel Href Hb1 Hb2 Ha1 first Ha2 second.
  unfold Backend.trace_of, Backend.outcome_of, Backend.state_of in *.
  destruct (@first_invocation on_account_deleted on_organization_deleted
              delete_refused account_refused env req1 b oid key Hkey Hk Hdel Href Hb1 Ha1)
    as (b1 & E1 & Horgs).
  destruct (@invoke_returned _ _ _ _ _ _ _ _ _ E1) as (R1 & O1 & S1).
  fold first in R1, O1, S1.
  split; [split; assumption |].
  assert (Hgone : filter (fun o => Backend.eq_filter (JString oid) (Some (org_id o)))
                         (Backend.organizations (snd first)) = []).
  { rewrite S1, Horgs.
    apply (filter_out_then_in
             (fun o => Backend.eq_filter (JString oid) (Some (org_id o)))). }
  destruct Href as (Hoid & _).
  pose proof (@later_invocation on_account_deleted on_organization_deleted
                delete_refused account_refused env req2 (snd first) oid key
                Hkey Hk Hoid Hgone Hb2 Ha2) as E2.
  destruct (@invoke_thrown _ _ _ _ _ _ _ _ _ E2) as (t' & R2 & T2 & O2 & _).
  fold second in T2, O2.
  eexists; exists t'; split; [exact R2 |].
  split; [reflexivity |]. split; assumption.
Qed.

(** ** The scenarios, run *)

Lemma scenario_runs env req b :
  runs (deprovision env req)
       (Backend.trace_of (Scenario.run env req b))
       (Backend.outcome_of (Scenario.run env req b)).
Proof. apply interp_runs. Qed.

Lemma scenario_refused_runs env req b :
  runs (deprovision env req)
       (Backend.trace_of (Scenario.run_refused env req b))
       (Backend.outcome_of (Scenario.run_refused env req b)).
Proof. apply interp_runs. Qed.

(** An anonymous request with a body that does not parse. *)
Lemma unauthorized_caller_no_privileged_call_witness :
  fails_with Scenario.env Scenario.anonymous_garbage
    (Backend.trace_of (Scenario.run Scenario.env Scenario.anonymous_garbage Scenario.backend))
    (Backend.outcome_of (Scenario.run Scenario.env Scenario.anonymous_garbage Scenario.backend))
    Unauthorized /\
  filter privileged
    (Backend.trace_of (Scenario.run Scenario.env Scenario.anonymous_garbage Scenario.backend))
    = [] /\
  collect account_deletion
    (Backend.trace_of (Scenario.run Scenario.env Scenario.anonymous_garbage Scenario.backend))
    = [] /\
  collect organization_deletion
    (Backend.trace_of (Scenario.run Scenario.env Scenario.anonymous_garbage Scenario.backend))
    = [].
Proof.
  apply unauthorized_caller_no_privileged_call.
  - apply scenario_runs.
  - left. vm_compute. auto.
Defined.

(** A manager, not a super admin, with a body that does not parse. *)
Lemma unauthorized_before_body_is_read_witness :
  fails_with Scenario.env Scenario.staff_garbage
    (Backend.trace_of (Scenario.run Scenario.env Scenario.staff_garbage Scenario.backend))
    (Backend.outcome_of (Scenario.run Scenario.env Scenario.staff_garbage Scenario.backend))
    Unauthorized /\
  filter reads_body
    (Backend.trace_of (Scenario.run Scenario.env Scenario.staff_garbage Scenario.backend))
    = [] /\
  (forall e, kind_of e = Some InvalidRequest ->
     Backend.outcome_of (Scenario.run Scenario.env Scenario.staff_garbage Scenario.backend)
     <> Returned (failure_response e)).
Proof.
  apply unauthorized_before_body_is_read.
  - apply scenario_runs.
  - right. exists (Some (mkProfile (JString "manager"))). split.
    + vm_compute. auto.
    + vm_compute. discriminate.
Defined.

(** The store refuses the final delete after both accounts were removed. *)
Lemma organization_delete_failure_is_fatal_witness :
  fails_with Scenario.env Scenario.delete_org1
    (Backend.trace_of (Scenario.run_refused Scenario.env Scenario.delete_org1 Scenario.backend))
    (Backend.outcome_of (Scenario.run_refused Scenario.env Scenario.delete_org1 Scenario.backend))
    DeletionFailed /\
  Backend.outcome_of (Scenario.run_refused Scenario.env Scenario.delete_org1 Scenario.backend)
  = Returned
      (mkResponse 400
         [ ("Access-Control-Allow-Origin", "*");
           ("Access-Control-Allow-Headers",
            "authorization, x-client-info, apikey, content-type");
           ("Content-Type", "application/json") ]
         (BodyJson (JObject
            [ ("error", JString (pg_message Backend.foreign_key_violation));
              ("details", JString "Check Supabase Function Logs for more info") ]))).
Proof.
  apply organization_delete_failure_is_fatal with (i := JString "org-1").
  - apply scenario_refused_runs.
  - vm_compute. auto.
Defined.

(** An organization id that references nothing: a [NotFound] failure. *)
Lemma failures_share_one_envelope_witness :
  exists k e,
    fails_with Scenario.env Scenario.delete_unknown
      (Backend.trace_of (Scenario.run Scenario.env Scenario.delete_unknown Scenario.backend))
      (Backend.outcome_of (Scenario.run Scenario.env Scenario.delete_unknown Scenario.backend))
      k /\
    kind_of e = Some k /\
    Backend.outcome_of (Scenario.run Scenario.env Scenario.delete_unknown Scenario.backend)
    = Returned
        (mkResponse 400 json_headers
           (BodyJson (JObject
              [ ("error", JString (error_message e));
                ("details", JString "Check Supabase Function Logs for more info") ]))) /\
    (forall k' e', kind_of e' = Some k' ->
       status (failure_response e') = 400 /\
       (error_message e' = error_message e ->
        Returned (failure_response e')
        = Backend.outcome_of
            (Scenario.run Scenario.env Scenario.delete_unknown Scenario.backend))).
Proof.
  apply failures_share_one_envelope.
  - apply scenario_runs.
  - intros [_ E]. vm_compute in E. discriminate E.
Defined.

(** The deployment lacks its secret: a [Misconfiguration] failure. *)
Lemma failure_details_are_constant_witness :
  exists m,
    Backend.outcome_of
      (Scenario.run Scenario.env_without_secret Scenario.delete_org1 Scenario.backend)
    = Returned
        (mkResponse 400 json_headers
           (BodyJson (JObject
              [ ("error", JString m);
                ("details", JString "Check Supabase Function Logs for more info") ]))) /\
    message_source
      (Backend.trace_of
         (Scenario.run Scenario.env_without_secret Scenario.delete_org1 Scenario.backend))
      m.
Proof.
  apply failure_details_are_constant with
    (env := Scenario.env_without_secret) (req := Scenario.delete_org1).
  - apply scenario_runs.
  - intros [_ E]. vm_compute in E. discriminate E.
Defined.

(** The lookup of [org-404] finds no row. *)
Lemma organization_lookup_failure_is_not_found_witness :
  fails_with Scenario.env Scenario.delete_unknown
    (Backend.trace_of (Scenario.run Scenario.env Scenario.delete_unknown Scenario.backend))
    (Backend.outcome_of (Scenario.run Scenario.env Scenario.delete_unknown Scenario.backend))
    NotFound /\
  caller_authorized
    (Backend.trace_of (Scenario.run Scenario.env Scenario.delete_unknown Scenario.backend)) /\
  organizationId_of Scenario.delete_unknown = Some (Some (JString "org-404")) /\
  truthy (JString "org-404") = true /\
  collect account_deletion
    (Backend.trace_of (Scenario.run Scenario.env Scenario.delete_unknown Scenario.backend))
    = [] /\
  collect organization_deletion
    (Backend.trace_of (Scenario.run Scenario.env Scenario.delete_unknown Scenario.backend))
    = [].
Proof.
  apply organization_lookup_failure_is_not_found
    with (r := mkQueryResult None (Some Backend.no_single_row)).
  - apply scenario_runs.
  - vm_compute. auto.
  - left. reflexivity.
Defined.

(** The super admin posts a body without [organizationId]. *)
Lemma missing_organizationId_is_invalid_request_witness :
  fails_with Scenario.env Scenario.without_id
    (Backend.trace_of (Scenario.run Scenario.env Scenario.without_id Scenario.backend))
    (Backend.outcome_of (Scenario.run Scenario.env Scenario.without_id Scenario.backend))
    InvalidRequest /\
  filter privileged
    (Backend.trace_of (Scenario.run Scenario.env Scenario.without_id Scenario.backend))
    = [] /\
  exists u p,
    filter store_query
      (Backend.trace_of (Scenario.run Scenario.env Scenario.without_id Scenario.backend))
    = [Call (SelectProfileRole (authorization Scenario.without_id) u) p].
Proof.
  apply missing_organizationId_is_invalid_request.
  - apply scenario_runs.
  - split.
    + exists (mkUser "admin-1"). vm_compute. auto.
    + exists (Some (mkProfile (JString "super_admin"))). split.
      * vm_compute. auto.
      * reflexivity.
  - reflexivity.
Defined.

(** C6, as stated, fails: on the request of the super admin without
    [organizationId] the workflow ends with [InvalidRequest], yet its run
    contains a query to the relational store, the role lookup on
    [user_profiles]. *)
Lemma store_is_queried_before_input_validation :
  runs (deprovision Scenario.env Scenario.without_id)
    (Backend.trace_of (Scenario.run Scenario.env Scenario.without_id Scenario.backend))
    (Backend.outcome_of (Scenario.run Scenario.env Scenario.without_id Scenario.backend)) /\
  caller_authorized
    (Backend.trace_of (Scenario.run Scenario.env Scenario.without_id Scenario.backend)) /\
  organizationId_absent Scenario.without_id = true /\
  Backend.outcome_of (Scenario.run Scenario.env Scenario.without_id Scenario.backend)
  = Returned (failure_response (Error "Organization ID is required")) /\
  filter store_query
    (Backend.trace_of (Scenario.run Scenario.env Scenario.without_id Scenario.backend))
  = [Call (SelectProfileRole (Some "Bearer admin-token") "admin-1")
          (mkQueryResult (Some (mkProfile (JString "super_admin"))) None)] /\
  filter store_query
    (Backend.trace_of (Scenario.run Scenario.env Scenario.without_id Scenario.backend))
  <> [].
Proof.
  split; [apply scenario_runs |].
  split.
  { split.
    - exists (mkUser "admin-1"). vm_compute. auto.
    - exists (Some (mkProfile (JString "super_admin"))). split.
      + vm_compute. auto.
      + reflexivity. }
  split; [reflexivity |].
  split; [reflexivity |].
  split; [reflexivity |].
  vm_compute. discriminate.
Qed.



(** The scenario of the claim, on the deployment of [Scenario]. *)
Lemma end_to_end_success_witness :
  collect account_deletion
    (Backend.trace_of (Scenario.run Scenario.env Scenario.delete_org1 Scenario.backend))
  = [(JString "u1", None); (JString "u2", None)] /\
  Backend.outcome_of (Scenario.run Scenario.env Scenario.delete_org1 Scenario.backend)
  = Returned
      (mkResponse 200 json_headers
         (BodyJson (JObject
            [ ("message",
               JString "Organization and associated accounts deleted successfully") ]))).
Proof.
  apply end_to_end_success with
    (env := Scenario.env) (req := Scenario.delete_org1)
    (org := mkOrganization "org-1" "Acme").
  - apply scenario_runs.
  - split.
    + exists (mkUser "admin-1"). vm_compute. auto.
    + exists (Some (mkProfile (JString "super_admin"))). split.
      * vm_compute. auto.
      * reflexivity.
  - reflexivity.
  - vm_compute. auto.
  - vm_compute. auto.
  - discriminate.
  - discriminate.
  - vm_compute. intros u r [E | [E | []]]; congruence.
  - vm_compute. auto.
Defined.

(** Deleting [org-1] twice on the deployment of [Scenario]. *)
Lemma delete_twice_success_then_not_found_witness :
  succeeds Scenario.env Scenario.delete_org1
    (Backend.trace_of (Scenario.run Scenario.env Scenario.delete_org1 Scenario.backend))
    (Backend.outcome_of (Scenario.run Scenario.env Scenario.delete_org1 Scenario.backend)) /\
  fails_with Scenario.env Scenario.delete_org1
    (Backend.trace_of
       (Scenario.run Scenario.env Scenario.delete_org1
          (Backend.state_of
             (Scenario.run Scenario.env Scenario.delete_org1 Scenario.backend))))
    (Backend.outcome_of
       (Scenario.run Scenario.env Scenario.delete_org1
          (Backend.state_of
             (Scenario.run Scenario.env Scenario.delete_org1 Scenario.backend))))
    NotFound.
Proof.
  apply (@delete_twice_success_then_not_found
           Backend.cascade_account Backend.cascade_organization Backend.never_refused
           Backend.no_account_refused
           Scenario.env Scenario.backend Scenario.delete_org1 Scenario.delete_org1
           "org-1" "service-role-key").
  - reflexivity.
  - discriminate.
  - reflexivity.
  - split; [discriminate |]. exists (mkOrganization "org-1" "Acme"). reflexivity.
  - reflexivity.
  - reflexivity.
  - reflexivity.
  - reflexivity.
Defined.

(** C8, as stated, fails.  [org-1] exists and the caller is an authorized
    super admin, yet the first invocation does not succeed: on a deployment
    without the service-role secret it ends with [Misconfiguration], and
    against a store that refuses the delete it ends with [DeletionFailed]. *)
Lemma first_invocation_may_fail :
  Backend.references Scenario.backend "org-1" /\
  organizationId_of Scenario.delete_org1 = Some (Some (JString "org-1")) /\
  Backend.authorized Scenario.backend (authorization Scenario.delete_org1) = true /\
  Backend.outcome_of
    (Scenario.run Scenario.env_without_secret Scenario.delete_org1 Scenario.backend)
  = Returned (failure_response
                (Error "Server misconfiguration: Service Role Key is missing")) /\
  Backend.outcome_of
    (Scenario.run_refused Scenario.env Scenario.delete_org1 Scenario.backend)
  = Returned (failure_response (ThrownPostgrestError Backend.foreign_key_violation)) /\
  ~ succeeds Scenario.env_without_secret Scenario.delete_org1
      (Backend.trace_of
         (Scenario.run Scenario.env_without_secret Scenario.delete_org1 Scenario.backend))
      (Backend.outcome_of
         (Scenario.run Scenario.env_without_secret Scenario.delete_org1 Scenario.backend)) /\
  ~ succeeds Scenario.env Scenario.delete_org1
      (Backend.trace_of
         (Scenario.run_refused Scenario.env Scenario.delete_org1 Scenario.backend))
      (Backend.outcome_of
         (Scenario.run_refused Scenario.env Scenario.delete_org1 Scenario.backend)).
Proof.
  split; [split; [discriminate | exists (mkOrganization "org-1" "Acme"); reflexivity] |].
  split; [reflexivity |].
  split; [reflexivity |].
  split; [reflexivity |].
  split; [reflexivity |].
  split; intros [_ E]; vm_compute in E; discriminate E.
Qed.

(** ** The callback as a whole *)

(** A preflight request is answered at once, without any call. *)
Lemma handler_preflight env req t o :
  method req = "OPTIONS" ->
  runs (handler env req) t o ->
  t = [] /\ o = Returned preflight_response.
Proof.
  unfold handler; intros ->; simpl; auto.
Qed.

(** Any other request runs the workflow. *)
Lemma handler_workflow env req :
  method req <> "OPTIONS" ->
  handler env req = deprovision env req.
Proof.
  unfold handler; intros H; apply String.eqb_neq in H; now rewrite H.
Qed.

(** * Part III: further properties of the handler *)

(** Evaluates the views of Part I over a trace whose only unknown part is
    the purge loop. *)
Ltac view_simpl :=
  repeat first
    [ progress cbn [collect filter app resolved_identity looked_up_profile
                    organization_lookup enumeration account_deletion
                    organization_deletion privileged store_query reads_body
                    admin_client_creation identity_request role_lookup
                    deletion_failure_log is_organization_delete
                    call_event edge_error_call]
    | rewrite collect_app
    | rewrite filter_app
    | rewrite (purge_calls_collect_nil resolved_identity) by reflexivity
    | rewrite (purge_calls_collect_nil looked_up_profile) by reflexivity
    | rewrite (purge_calls_collect_nil organization_lookup) by reflexivity
    | rewrite (purge_calls_collect_nil enumeration) by reflexivity
    | rewrite (purge_calls_collect_nil organization_deletion) by reflexivity
    | rewrite (purge_calls_collect_nil admin_client_creation) by reflexivity
    | rewrite (purge_calls_collect_nil identity_request) by reflexivity
    | rewrite (purge_calls_collect_nil role_lookup) by reflexivity
    | rewrite app_nil_r ].

Ltac view_simpl_in H :=
  repeat first
    [ progress cbn [collect filter app resolved_identity looked_up_profile
                    organization_lookup enumeration account_deletion
                    organization_deletion privileged store_query reads_body
                    admin_client_creation identity_request role_lookup
                    deletion_failure_log is_organization_delete
                    call_event edge_error_call In] in H
    | rewrite collect_app in H
    | rewrite filter_app in H
    | rewrite (purge_calls_collect_nil resolved_identity) in H by reflexivity
    | rewrite (purge_calls_collect_nil looked_up_profile) in H by reflexivity
    | rewrite (purge_calls_collect_nil organization_lookup) in H by reflexivity
    | rewrite (purge_calls_collect_nil enumeration) in H by reflexivity
    | rewrite (purge_calls_collect_nil organization_deletion) in H by reflexivity
    | rewrite (purge_calls_collect_nil admin_client_creation) in H by reflexivity
    | rewrite (purge_calls_collect_nil identity_request) in H by reflexivity
    | rewrite (purge_calls_collect_nil role_lookup) in H by reflexivity
    | rewrite app_nil_r in H ].

(** ** Privilege is reached through authorization only *)

Lemma try_block_privilege env req t o :
  runs (deprovision_try env req) t o ->
  filter privileged t <> [] ->
  caller_authorized t /\
  exists i key,
    organizationId_of req = Some (Some i) /\
    truthy i = true /\
    SERVICE_ROLE_KEY env = Some key /\
    key <> "" /\
    exists rest,
      filter privileged t =
      Call (CreateAdminClient (nullish (SUPABASE_URL env) "") key) tt :: rest.
Proof.
  intros H Hp.
  unfold caller_authorized, is_super_admin, organizationId_of.
  try_paths H; cbn [filter privileged call_event] in Hp; try congruence.
  all: rewrite strict_neq_string_false in *.
  all: rewrite negb_false_iff in *.
  all: match goal with Hk : (_ =? "") = false |- _ => apply String.eqb_neq in Hk end.
  all: cbn [filter privileged call_event collect resolved_identity looked_up_profile].
  all: (split; [split; [eexists; left; reflexivity
                       | eexists; split; [left; reflexivity | eassumption]] |]).
  all: do 2 eexists; repeat split; eauto.
Qed.

(** X1.  A run that contains any privileged call is the run of a request
    whose caller was resolved and holds [super_admin], whose body carries a
    truthy [organizationId], on a deployment whose service-role secret is
    set; and the first privileged call is the creation of the admin client
    with that secret. *)
Theorem privileged_calls_need_authorization env req t o :
  runs (deprovision env req) t o ->
  filter privileged t <> [] ->
  caller_authorized t /\
  exists i key,
    organizationId_of req = Some (Some i) /\
    truthy i = true /\
    SERVICE_ROLE_KEY env = Some key /\
    key <> "" /\
    exists rest,
      filter privileged t =
      Call (CreateAdminClient (nullish (SUPABASE_URL env) "") key) tt :: rest.
Proof.
  intros H Hp. apply deprovision_inv in H.
  destruct H as [(r & H & ->) | (e & t' & H & -> & ->)].
  - exact (try_block_privilege H Hp).
  - unfold caller_authorized.
    rewrite filter_snoc_edge_error in * by reflexivity.
    rewrite !collect_snoc_edge_error by reflexivity.
    exact (try_block_privilege H Hp).
Qed.

(** ** The service-role secret *)

Lemma try_block_without_secret env req t o :
  runs (deprovision_try env req) t o ->
  SERVICE_ROLE_KEY env = None \/ SERVICE_ROLE_KEY env = Some "" ->
  filter privileged t = [] /\
  (exists e, o = Thrown e) /\
  (caller_authorized t -> organizationId_absent req = false ->
   o = Thrown (Error "Server misconfiguration: Service Role Key is missing") /\
   In ServiceRoleKeyMissing (collect error_log t)).
Proof.
  intros H Hk.
  unfold caller_authorized, is_super_admin, organizationId_absent, organizationId_of.
  try_paths H.
  all: try (destruct Hk as [Hk | Hk];
            [discriminate Hk | injection Hk as Hk; subst; simpl in *; discriminate]).
  all: split; [reflexivity |]; split; [eauto |].
  all: intros ((u' & Hu) & (p' & Hp & Hrole)) Hb.
  all: cbn [collect resolved_identity looked_up_profile In] in Hu, Hp.
  all: try (destruct Hu as [Hu | []]; discriminate Hu).
  all: try (destruct Hp as [Hp | []]; subst p';
            rewrite <- strict_neq_string_false in Hrole; congruence).
  all: try (simpl in Hb; congruence).
  all: split; [reflexivity | simpl; auto].
Qed.

(** X2.  When the service-role secret is absent or empty, an authorized
    caller who names an organization gets a [Misconfiguration] failure: the
    missing secret is logged and nothing privileged is called. *)
Theorem missing_secret_is_misconfiguration env req t o :
  runs (deprovision env req) t o ->
  SERVICE_ROLE_KEY env = None \/ SERVICE_ROLE_KEY env = Some "" ->
  caller_authorized t ->
  organizationId_absent req = false ->
  fails_with env req t o Misconfiguration /\
  In ServiceRoleKeyMissing (collect error_log t) /\
  filter privileged t = [].
Proof.
  intros H Hk Ha Hb. apply deprovision_inv in H.
  destruct H as [(r & H & ->) | (e & t' & H & -> & ->)].
  - destruct (try_block_without_secret H Hk) as (_ & (e & He) & _); discriminate He.
  - unfold caller_authorized in Ha.
    rewrite !collect_snoc_edge_error in Ha by reflexivity.
    destruct (try_block_without_secret H Hk) as (Hp & _ & Hm).
    destruct (Hm Ha Hb) as (E & Hlog). injection E as ->.
    split; [eexists; exists t'; repeat split; auto |].
    split.
    + rewrite collect_app; apply in_or_app; left; exact Hlog.
    + rewrite filter_snoc_edge_error by reflexivity; exact Hp.
Qed.

(** ** From the enumeration on *)

Lemma purge_calls_combine_in ids answers u r :
  List.length answers = List.length ids ->
  In (u, r) (collect account_deletion (purge_calls ids answers)) ->
  In u ids.
Proof.
  intros Hlen Hin. rewrite purge_calls_deletions in Hin by exact Hlen.
  eapply in_combine_l, Hin.
Qed.



(** ** Only what the request names *)

Lemma try_block_targets env req t o :
  runs (deprovision_try env req) t o ->
  (forall i r, In (i, r) (collect organization_lookup t) ->
     organizationId_of req = Some (Some i)) /\
  (forall i r, In (i, r) (collect enumeration t) ->
     organizationId_of req = Some (Some i)) /\
  (forall i r, In (i, r) (collect organization_deletion t) ->
     organizationId_of req = Some (Some i)) /\
  (forall u r, In (u, r) (collect account_deletion t) ->
     truthy u = true /\
     exists i res,
       In (i, res) (collect enumeration t) /\
       In u (map user_id (enumerated res))).
Proof.
  intros H. unfold organizationId_of, enumerated.
  try_paths H; trace_simpl.
  all: split; [| split; [| split]].
  all: try (intros ? ? []; fail).
  all: try (intros i' r' [Hi | []]; injection Hi as <- _; reflexivity).
  all: try (intros i' r' Hi; apply in_app_or in Hi as [[] | [Hi | []]];
            injection Hi as <- _; reflexivity).
  all: intros u' r' Hin.
  all: try (apply in_app_or in Hin as [Hin | []]).
  all: apply purge_calls_combine_in in Hin; [| assumption].
  all: unfold deletable in Hin; apply filter_In in Hin as [Hin Ht].
  all: split; [exact Ht |]; do 2 eexists; split; [left; reflexivity |].
  all: match goal with Hd : data _ = _ |- _ => rewrite Hd end; exact Hin.
Qed.

(** X4.  The workflow touches only what the request names: the organization
    that is looked up, whose profiles are enumerated and that is deleted is
    the [organizationId] of the body, and every account deletion is for the
    truthy [user_id] of a profile the enumeration answered with. *)
Theorem only_the_named_organization env req t o :
  runs (deprovision env req) t o ->
  (forall i r, In (i, r) (collect organization_lookup t) ->
     organizationId_of req = Some (Some i)) /\
  (forall i r, In (i, r) (collect enumeration t) ->
     organizationId_of req = Some (Some i)) /\
  (forall i r, In (i, r) (collect organization_deletion t) ->
     organizationId_of req = Some (Some i)) /\
  (forall u r, In (u, r) (collect account_deletion t) ->
     truthy u = true /\
     exists i res,
       In (i, res) (collect enumeration t) /\
       In u (map user_id (enumerated res))).
Proof.
  intros H. apply deprovision_inv in H.
  destruct H as [(r & H & ->) | (e & t' & H & -> & ->)].
  - exact (try_block_targets H).
  - rewrite !collect_snoc_edge_error by reflexivity.
    exact (try_block_targets H).
Qed.

(** ** The order of the deletions *)

Lemma before_organization_delete_app t1 t2 :
  filter is_organization_delete t1 = [] ->
  before_organization_delete (t1 ++ t2) = t1 ++ before_organization_delete t2.
Proof.
  induction t1 as [| c t1 IH]; simpl; [reflexivity |].
  destruct (is_organization_delete c); [discriminate |].
  intros H; now rewrite IH.
Qed.

Lemma after_organization_delete_app t1 t2 :
  filter is_organization_delete t1 = [] ->
  after_organization_delete (t1 ++ t2) = after_organization_delete t2.
Proof.
  induction t1 as [| c t1 IH]; simpl; [reflexivity |].
  destruct (is_organization_delete c); [discriminate |].
  exact IH.
Qed.

Lemma purge_calls_no_organization_delete ids answers :
  filter is_organization_delete (purge_calls ids answers) = [].
Proof.
  revert answers; induction ids as [| u ids IH]; intros [| a answers]; simpl;
    try reflexivity.
  destruct a; simpl; apply IH.
Qed.

(** A trace splits at its organization delete. *)
Lemma split_at_organization_delete t i r :
  collect organization_deletion t = [(i, r)] ->
  t = before_organization_delete t
      ++ Call (DeleteOrganization i) r :: after_organization_delete t /\
  collect organization_deletion (before_organization_delete t) = [] /\
  collect organization_deletion (after_organization_delete t) = [].
Proof.
  induction t as [| [X ev x] t IH]; simpl; [discriminate |].
  destruct ev; simpl; try (intros H; destruct (IH H) as (E & B & A);
                           repeat split; [now f_equal | exact B | exact A]).
  intros H; injection H as -> -> H. auto.
Qed.

Lemma try_block_order env req t o i r :
  runs (deprovision_try env req) t o ->
  In (i, r) (collect organization_deletion t) ->
  collect organization_deletion t = [(i, r)] /\
  after_organization_delete t = [] /\
  collect account_deletion (before_organization_delete t) = collect account_deletion t.
Proof.
  intros H Hd.
  try_paths H; trace_simpl_in Hd; try contradiction.
  all: destruct Hd as [Hd | []]; injection Hd as <- <-.
  all: trace_simpl.
  all: split; [reflexivity |].
  all: cbn [before_organization_delete after_organization_delete
            is_organization_delete call_event].
  all: try rewrite after_organization_delete_app
         by apply purge_calls_no_organization_delete.
  all: try rewrite before_organization_delete_app
         by apply purge_calls_no_organization_delete.
  all: cbn [before_organization_delete after_organization_delete
            is_organization_delete call_event].
  all: split; [reflexivity |].
  all: trace_simpl; cbn [collect account_deletion]; try rewrite !app_nil_r.
  all: reflexivity.
Qed.

Lemma organization_delete_then_app t1 t2 :
  collect organization_deletion t1 <> [] ->
  before_organization_delete (t1 ++ t2) = before_organization_delete t1 /\
  after_organization_delete (t1 ++ t2) = after_organization_delete t1 ++ t2.
Proof.
  induction t1 as [| [X ev x] t1 IH]; simpl; [congruence |].
  destruct ev; simpl; auto.
  all: intros H; destruct (IH H) as (B & A); split; [now f_equal | exact A].
Qed.

(** X5.  The organization is deleted last.  A run that issues the
    organization delete issues it once; every account deletion of the run
    comes before it, and after it comes nothing but the log entry of the
    [catch] clause when the delete failed. *)
Theorem organization_delete_comes_last env req t o i r :
  runs (deprovision env req) t o ->
  In (i, r) (collect organization_deletion t) ->
  t = before_organization_delete t
      ++ Call (DeleteOrganization i) r :: after_organization_delete t /\
  collect organization_deletion (before_organization_delete t) = [] /\
  collect account_deletion (before_organization_delete t) = collect account_deletion t /\
  filter privileged (after_organization_delete t) = [] /\
  after_organization_delete t =
    match r with
    | None => []
    | Some e => [edge_error_call (ThrownPostgrestError e)]
    end.
Proof.
  intros H Hd. apply deprovision_inv in H.
  destruct H as [(r' & H & ->) | (e & t' & H & -> & ->)].
  - destruct (@try_block_order _ _ _ _ _ _ H Hd) as (Hone & Hafter & Hacc).
    destruct (@split_at_organization_delete _ _ _ Hone) as (E & B & _).
    split; [exact E |]. split; [exact B |]. split; [exact Hacc |].
    rewrite Hafter. split; [reflexivity |].
    destruct r as [pe |]; [| reflexivity].
    exfalso. clear - H Hone.
    try_paths H; trace_simpl_in Hone; discriminate Hone.
  - rewrite collect_snoc_edge_error in Hd by reflexivity.
    destruct (@try_block_order _ _ _ _ _ _ H Hd) as (Hone & Hafter & Hacc).
    destruct (@split_at_organization_delete _ _ _ Hone) as (E & B & _).
    assert (Hne : collect organization_deletion t' <> [])
      by (rewrite Hone; discriminate).
    destruct (@organization_delete_then_app t' [edge_error_call e] Hne) as (-> & ->).
    rewrite collect_snoc_edge_error by reflexivity.
    rewrite Hafter; simpl.
    split; [rewrite E at 1; rewrite <- app_assoc; simpl; now rewrite Hafter |].
    split; [exact B |]. split; [exact Hacc |]. split; [reflexivity |].
    assert (Er : r = match e with ThrownPostgrestError pe => Some pe | _ => None end
                 /\ exists pe, e = ThrownPostgrestError pe).
    { clear - H Hone. try_paths H; trace_simpl_in Hone; try discriminate Hone.
      all: injection Hone as _ <-; eauto. }
    destruct Er as (-> & pe & ->). reflexivity.
Qed.

(** ** Nothing is retried *)

Lemma try_block_once env req t o :
  runs (deprovision_try env req) t o ->
  List.length (collect identity_request t) <= 1 /\
  List.length (collect role_lookup t) <= 1 /\
  List.length (collect admin_client_creation t) <= 1 /\
  List.length (collect organization_lookup t) <= 1 /\
  List.length (collect enumeration t) <= 1 /\
  List.length (collect organization_deletion t) <= 1.
Proof.
  intros H.
  try_paths H; view_simpl; cbn [List.length]; repeat split; auto.
Qed.

(** X6.  Within one invocation nothing is retried: the resolution of the
    caller, the role lookup, the creation of the admin client, the
    organization lookup, the enumeration and the organization delete happen
    at most once each, whatever they answer. *)
Theorem nothing_is_retried env req t o :
  runs (deprovision env req) t o ->
  List.length (collect identity_request t) <= 1 /\
  List.length (collect role_lookup t) <= 1 /\
  List.length (collect admin_client_creation t) <= 1 /\
  List.length (collect organization_lookup t) <= 1 /\
  List.length (collect enumeration t) <= 1 /\
  List.length (collect organization_deletion t) <= 1.
Proof.
  intros H. apply deprovision_inv in H.
  destruct H as [(r & H & ->) | (e & t' & H & -> & ->)].
  - exact (try_block_once H).
  - rewrite !collect_snoc_edge_error by reflexivity.
    exact (try_block_once H).
Qed.

(** ** Success means the delete was acknowledged *)

Lemma try_block_success env req t o :
  runs (deprovision_try env req) t o ->
  (exists r, o = Returned r) <->
  (exists i, In (i, None) (collect organization_deletion t)).
Proof.
  intros H.
  try_paths H; trace_simpl; split.
  all: try (intros (r & E); discriminate E).
  all: try (intros (i & []); fail).
  all: try (intros (i & [E | []]); discriminate E).
  all: try (intros _; eexists; reflexivity).
  all: try (intros _; eexists; left; reflexivity).
Qed.

(** X7.  The caller is told of success exactly when the store acknowledged
    the organization delete: the response is the 200 success response if and
    only if the run contains an organization delete that answered without
    error; in every other run the status is 400. *)
Theorem success_iff_delete_acknowledged env req t o :
  runs (deprovision env req) t o ->
  exists resp,
    o = Returned resp /\
    (resp = success_response <->
     exists i, In (i, None) (collect organization_deletion t)) /\
    (status resp = 200 <-> resp = success_response) /\
    (resp <> success_response -> status resp = 400).
Proof.
  intros H. apply deprovision_inv in H.
  destruct H as [(r & H & ->) | (e & t' & H & -> & ->)].
  - pose proof (try_block_success H) as [Hs _].
    assert (r = success_response) as -> by (try_paths H; reflexivity).
    exists success_response; repeat split; auto; try contradiction.
    intros _; apply Hs; eauto.
  - pose proof (try_block_success H) as [_ Hs].
    rewrite collect_snoc_edge_error by reflexivity.
    exists (failure_response e); repeat split; try discriminate; auto.
    intros Hd; apply Hs in Hd as (r & E); discriminate E.
Qed.

(** ** Failed account deletions are logged *)

Lemma failed_deletions_app l1 l2 :
  failed_deletions (l1 ++ l2) = failed_deletions l1 ++ failed_deletions l2.
Proof.
  induction l1 as [| [u [e |]] l1 IH]; simpl; [reflexivity | now rewrite IH | exact IH].
Qed.

Lemma purge_calls_failures_logged ids answers :
  collect deletion_failure_log (purge_calls ids answers) =
  failed_deletions (collect account_deletion (purge_calls ids answers)).
Proof.
  revert answers; induction ids as [| u ids IH]; intros [| a answers]; simpl;
    try reflexivity.
  destruct a as [e |]; simpl; now rewrite IH.
Qed.

Lemma try_block_failures_logged env req t o :
  runs (deprovision_try env req) t o ->
  collect deletion_failure_log t = failed_deletions (collect account_deletion t).
Proof.
  intros H.
  try_paths H; view_simpl; cbn [collect account_deletion deletion_failure_log];
    rewrite ?collect_app, ?failed_deletions_app, ?purge_calls_failures_logged;
    reflexivity.
Qed.

(** X8.  Every account deletion that fails is written to the error log, and
    nothing else is logged as one: the log entries of line 111 are, in
    order, the identifiers and errors of the deletions that answered with an
    error. *)
Theorem failed_account_deletions_are_logged env req t o :
  runs (deprovision env req) t o ->
  collect deletion_failure_log t = failed_deletions (collect account_deletion t).
Proof.
  intros H. apply deprovision_inv in H.
  destruct H as [(r & H & ->) | (e & t' & H & -> & ->)].
  - exact (try_block_failures_logged H).
  - rewrite !collect_snoc_edge_error by reflexivity.
    exact (try_block_failures_logged H).
Qed.

(** ** Whose role is checked *)

Lemma try_block_identity env req t o :
  runs (deprovision_try env req) t o ->
  collect identity_request t = [authorization req] /\
  (forall a uid, In (a, uid) (collect role_lookup t) ->
     a = authorization req /\
     collect resolved_identity t = [Some (mkUser uid)]).
Proof.
  intros H.
  try_paths H; view_simpl; split; try reflexivity.
  all: try (intros ? ? []; fail).
  all: intros a' uid' [E | []]; injection E as <- <-.
  all: match goal with u : User |- _ => destruct u end; auto.
Qed.

(** X9.  The role that decides is the caller's own: a call to
    [auth.getUser()], when there is one, is made with the [Authorization]
    header of the request, and a role lookup, when there is one, is made
    with that header for the user id that [auth.getUser()] answered with. *)
Theorem role_checked_is_the_callers env req t o :
  runs (deprovision env req) t o ->
  (forall a, In a (collect identity_request t) -> a = authorization req) /\
  (forall a uid, In (a, uid) (collect role_lookup t) ->
     a = authorization req /\
     collect resolved_identity t = [Some (mkUser uid)]).
Proof.
  intros H. apply deprovision_inv in H.
  destruct H as [(r & H & ->) | (e & t' & H & -> & ->)].
  - destruct (try_block_identity H) as (I & L). rewrite I.
    split; [intros a [<- | []]; reflexivity | exact L].
  - rewrite !collect_snoc_edge_error by reflexivity.
    destruct (try_block_identity H) as (I & L). rewrite I.
    split; [intros a [<- | []]; reflexivity | exact L].
Qed.

(** ** The callback: preflight and headers *)

Lemma try_block_starts env req t o :
  runs (deprovision_try env req) t o ->
  exists u rest,
    t = Call (CreateClient (nullish (SUPABASE_URL env) "")
                           (nullish (SUPABASE_ANON_KEY env) "")
                           (authorization req)) tt
        :: Call (AuthGetUser (authorization req)) u :: rest.
Proof.
  intros H. unfold deprovision_try in H. cbn [runs bind trigger] in H.
  destruct H as ([] & t1 & -> & u & t2 & -> & _). eauto.
Qed.

Lemma workflow_starts env req t o :
  runs (deprovision env req) t o ->
  exists u rest,
    t = Call (CreateClient (nullish (SUPABASE_URL env) "")
                           (nullish (SUPABASE_ANON_KEY env) "")
                           (authorization req)) tt
        :: Call (AuthGetUser (authorization req)) u :: rest /\
    collect identity_request rest = [].
Proof.
  intros H. apply deprovision_inv in H.
  destruct H as [(r & H & ->) | (e & t' & H & -> & ->)].
  - destruct (try_block_starts H) as (u & rest & ->).
    destruct (try_block_identity H) as (I & _). simpl in I.
    exists u, rest; split; [reflexivity | now injection I].
  - destruct (try_block_starts H) as (u & rest & ->).
    destruct (try_block_identity H) as (I & _). simpl in I.
    exists u, (rest ++ [edge_error_call e]); split; [reflexivity |].
    rewrite collect_snoc_edge_error by reflexivity. now injection I.
Qed.

(** X10.  A request is answered without any call if and only if it is a
    preflight ([OPTIONS]) request, and then with status 200, the two CORS
    headers, the content type of the text body and the body [ok].  In the
    run of any other request, whenever [auth.getUser()] is called it is
    called with the request's own [Authorization] header, and what precedes
    that call is the creation of the caller-scoped client with that header,
    and nothing else. *)
Theorem preflight_or_authenticated env req t o :
  runs (handler env req) t o ->
  (t = [] <-> method req = "OPTIONS") /\
  (method req = "OPTIONS" ->
   o = Returned
         (mkResponse 200
            [ ("Access-Control-Allow-Origin", "*");
              ("Access-Control-Allow-Headers",
               "authorization, x-client-info, apikey, content-type");
              ("Content-Type", "text/plain;charset=UTF-8") ]
            (BodyText "ok"))) /\
  (method req <> "OPTIONS" ->
   forall pre a u post,
     t = pre ++ Call (AuthGetUser a) u :: post ->
     a = authorization req /\
     pre = [ Call (CreateClient (nullish (SUPABASE_URL env) "")
                                (nullish (SUPABASE_ANON_KEY env) "")
                                (authorization req)) tt ]).
Proof.
  intros H. unfold handler in H.
  destruct (method req =? "OPTIONS") eqn:M.
  - apply String.eqb_eq in M. simpl in H. destruct H as [-> ->].
    split; [tauto |]. split; [reflexivity |].
    intros N; contradiction.
  - apply String.eqb_neq in M.
    destruct (workflow_starts H) as (u0 & rest & E & I).
    split; [split; [intros ->; discriminate E | contradiction] |].
    split; [contradiction |].
    intros _ pre a u post Ht. rewrite Ht in E.
    destruct pre as [| c1 [| c2 pre]]; simpl in E.
    + apply (f_equal (fun l => collect identity_request (firstn 1 l))) in E.
      discriminate E.
    + apply (f_equal (fun l => collect identity_request (firstn 1 (skipn 1 l)))) in E
        as Ea.
      simpl in Ea. injection Ea as ->.
      split; [reflexivity |].
      injection E as ->. reflexivity.
    + injection E as _ _ E.
      apply (f_equal (collect identity_request)) in E.
      rewrite collect_app, I in E. simpl in E.
      destruct (collect identity_request pre); discriminate E.
Qed.

(** X11.  Every response carries the CORS headers, the failures too: the
    two [Access-Control-Allow-*] headers are on the preflight answer, on the
    success response and on every failure envelope, the JSON responses add
    their content type, and the status is 200 or 400. *)
Theorem every_response_has_cors_headers env req t o :
  runs (handler env req) t o ->
  exists resp,
    o = Returned resp /\
    (forall h, In h corsHeaders -> In h (headers resp)) /\
    (method req <> "OPTIONS" ->
     In ("Content-Type", "application/json") (headers resp)) /\
    (status resp = 200 \/ status resp = 400).
Proof.
  intros H. unfold handler in H.
  destruct (method req =? "OPTIONS") eqn:M.
  - apply String.eqb_eq in M. simpl in H. destruct H as [-> ->].
    exists preflight_response; repeat split; auto.
    + intros h Hh; simpl in *; tauto.
    + intros N; contradiction.
  - destruct (deprovision_outcomes H) as [(_ & ->) | (k & e & t' & _ & _ & _ & ->)].
    + exists success_response; repeat split; auto.
      * intros h Hh; simpl in *; tauto.
      * intros _; simpl; auto.
    + exists (failure_response e); repeat split; auto.
      * intros h Hh; simpl in *; tauto.
      * intros _; simpl; auto.
Qed.

(** * Part IV: the effect on the backend *)

(** Calls that are not deletions leave the backend as it was. *)
Lemma interp_without_mutation
    (on_account_deleted : list Backend.ProfileRow -> string -> list Backend.ProfileRow)
    (on_organization_deleted : list Backend.ProfileRow -> json -> list Backend.ProfileRow)
    (delete_refused : Backend.state -> json -> option PostgrestError)
    (account_refused : Backend.state -> string -> option AuthError)
    (R : Type) (p : prog R) (b : Backend.state) :
  filter mutation
    (fst (fst (interp (Backend.answer on_account_deleted on_organization_deleted
                                      delete_refused account_refused) p b))) = [] ->
  snd (interp (Backend.answer on_account_deleted on_organization_deleted
                              delete_refused account_refused) p b) = b.
Proof.
  revert b; induction p as [r | e | X ev k IH]; intros b; simpl; auto.
  destruct ev; simpl.
  all: try (match goal with
            | |- context [interp ?h (?kk ?x) ?s] =>
                let IH' := fresh "IH" in
                pose proof (IH x s) as IH';
                destruct (interp h (kk x) s) as [[t o] s2];
                simpl in *; exact IH'
            end).
  - destruct (Backend.delete_account on_account_deleted account_refused b user_id0) as [x s1].
    destruct (interp _ (k x) s1) as [[t o] s2]; simpl; discriminate.
  - destruct (Backend.delete_organization on_organization_deleted delete_refused b id0)
      as [x s1].
    destruct (interp _ (k x) s1) as [[t o] s2]; simpl; discriminate.
Qed.

Lemma try_block_early_failure env req t e k :
  runs (deprovision_try env req) t (Thrown e) ->
  kind_of e = Some k ->
  k <> DeletionFailed ->
  filter mutation t = [].
Proof.
  intros H K Hk.
  try_paths H; try reflexivity.
  all: simpl in K; injection K as <-; contradiction.
Qed.

(** X12.  A request that is turned away changes nothing.  Whatever the
    policies of the store and of the identity provider, an invocation that
    fails as [Unauthorized], [InvalidRequest], [Misconfiguration] or
    [NotFound] leaves the sessions, the accounts, the profiles and the
    organizations of the backend exactly as they were. *)
Theorem refused_request_changes_nothing
    (on_account_deleted : list Backend.ProfileRow -> string -> list Backend.ProfileRow)
    (on_organization_deleted : list Backend.ProfileRow -> json -> list Backend.ProfileRow)
    (delete_refused : Backend.state -> json -> option PostgrestError)
    (account_refused : Backend.state -> string -> option AuthError)
    env req b k :
  fails_with env req
    (Backend.trace_of
       (Backend.invoke on_account_deleted on_organization_deleted
                       delete_refused account_refused
                       env req b))
    (Backend.outcome_of
       (Backend.invoke on_account_deleted on_organization_deleted
                       delete_refused account_refused
                       env req b))
    k ->
  k <> DeletionFailed ->
  Backend.state_of
    (Backend.invoke on_account_deleted on_organization_deleted
                    delete_refused account_refused
                    env req b) = b.
Proof.
  intros (e & t' & Hrun & K & Ht & _) Hk.
  unfold Backend.state_of, Backend.trace_of, Backend.invoke in *.
  apply interp_without_mutation. rewrite Ht.
  rewrite filter_snoc_edge_error by reflexivity.
  exact (try_block_early_failure Hrun K Hk).
Qed.

(** ** What an invocation that reaches the purge does *)






Section Effects.

Variable on_account_deleted :
  list Backend.ProfileRow -> string -> list Backend.ProfileRow.
Variable on_organization_deleted :
  list Backend.ProfileRow -> json -> list Backend.ProfileRow.
Variable delete_refused : Backend.state -> json -> option PostgrestError.
Variable account_refused : Backend.state -> string -> option AuthError.

Local Abbreviation answer :=
  (Backend.answer on_account_deleted on_organization_deleted
                  delete_refused account_refused).
Local Abbreviation invoke :=
  (Backend.invoke on_account_deleted on_organization_deleted
                  delete_refused account_refused).






End Effects.




(** * Part V: the companies table *)

Lemma filter_swap {A : Type} (f g : A -> bool) (l : list A) :
  filter f (filter g l) = filter g (filter f l).
Proof.
  induction l as [| a l IH]; simpl; [reflexivity |].
  destruct (f a) eqn:F, (g a) eqn:G; simpl; rewrite ?F, ?G, IH; reflexivity.
Qed.

(** X15.  After a delete that succeeded the table shows what it showed
    before, less the rows of the deleted company: for every search term and
    every case mapping, the visible rows are the earlier visible rows whose
    [id] differs, in the same order; the modal is closed and nothing is
    selected or pending any more. *)
Theorem deleted_row_leaves_the_table
    (toLowerCase : string -> string) (s : Dashboard.state) (c : Dashboard.Company) :
  Dashboard.companyToDelete s = Some c ->
  Dashboard.filteredCompanies toLowerCase (snd (Dashboard.confirmDelete s None)) =
    filter (fun c' => negb (String.eqb (Dashboard.id c') (Dashboard.id c)))
           (Dashboard.filteredCompanies toLowerCase s) /\
  (forall c', In c' (Dashboard.filteredCompanies toLowerCase
                       (snd (Dashboard.confirmDelete s None))) ->
              Dashboard.id c' <> Dashboard.id c) /\
  Dashboard.deleteModalOpen (snd (Dashboard.confirmDelete s None)) = false /\
  Dashboard.companyToDelete (snd (Dashboard.confirmDelete s None)) = None /\
  Dashboard.isDeleting (snd (Dashboard.confirmDelete s None)) = false.
Proof.
  intros Hsel. unfold Dashboard.confirmDelete; rewrite Hsel; simpl.
  unfold Dashboard.filteredCompanies; simpl.
  split; [apply filter_swap |].
  split; [| auto].
  intros c' Hin. apply filter_In in Hin as [Hin _].
  apply filter_In in Hin as [_ Hid].
  now apply negb_true_iff, String.eqb_neq in Hid.
Qed.

(** ** The modal and the selection *)

(** X16.  The confirm button always has a company to act on.  In every
    state the component can reach, an open modal comes with a selected
    company, so that confirming calls the [delete-account] function exactly
    once, with that company's [id] as [organizationId]. *)
Theorem open_modal_has_a_selection (s : Dashboard.state) :
  Dashboard.reachable s ->
  Dashboard.deleteModalOpen s = true ->
  exists c,
    Dashboard.companyToDelete s = Some c /\
    forall error,
      Dashboard.invocations (fst (Dashboard.confirmDelete s error)) =
      [ ("delete-account", JObject [ ("organizationId", JString (Dashboard.id c)) ]) ].
Proof.
  intros Hr Hopen.
  assert (Hinv : exists c, Dashboard.companyToDelete s = Some c).
  { induction Hr as [| s rows Hr IH | s term Hr IH | s company Hr IH | s Hr IH
                     | s error Hr IH]; simpl in *; try discriminate; eauto.
    unfold Dashboard.confirmDelete in *.
    destruct (Dashboard.companyToDelete s) as [sel |] eqn:Hsel;
      [| simpl in *; rewrite Hsel; apply IH, Hopen].
    destruct error as [err |]; [| discriminate Hopen].
    destruct (Dashboard.errorMessage_of err); simpl in *; eauto. }
  destruct Hinv as (c & Hsel). exists c; split; [exact Hsel |].
  intros [err |]; unfold Dashboard.confirmDelete; rewrite Hsel; [| reflexivity].
  unfold Dashboard.errorMessage_of.
  destruct (Dashboard.fe_context err) as [[m | body] |]; reflexivity.
Qed.

(** ** The table and the handler together *)




(** ** What a fetched row looks like *)

Lemma or_else_not_empty (a : option string) (d : string) :
  d <> "" -> Dashboard.or_else a d <> "".
Proof.
  intros Hd; unfold Dashboard.or_else.
  destruct a as [s |]; [| exact Hd].
  destruct (s =? "") eqn:E; [exact Hd | now apply String.eqb_neq].
Qed.

(** X19.  A fetched organization is never shown with a blank or gray
    field: its status is [active] when [is_active] is true and [suspended]
    in every other case, so its status badge is green or red and never the
    gray of the default branch; its e-mail, phone, plan and subscription
    status are never empty; and the list keeps the rows' [id]s in order. *)
Theorem fetched_companies_are_presentable
    (s : Dashboard.state) (rows : list Dashboard.OrganizationRow) :
  map Dashboard.id (Dashboard.companies (Dashboard.fetchCompanies s (Some rows))) =
    map Dashboard.row_id rows /\
  forall c,
    In c (Dashboard.companies (Dashboard.fetchCompanies s (Some rows))) ->
    (Dashboard.status c = "active" \/ Dashboard.status c = "suspended") /\
    (Dashboard.getStatusColor (Dashboard.status c) = "bg-green-100 text-green-800" \/
     Dashboard.getStatusColor (Dashboard.status c) = "bg-red-100 text-red-800") /\
    Dashboard.email c <> "" /\
    (exists p, Dashboard.phone c = Some p /\ p <> "") /\
    (exists p, Dashboard.subscription_plan c = Some p /\ p <> "") /\
    (exists p, Dashboard.subscription_status c = Some p /\ p <> "").
Proof.
  simpl. split; [rewrite map_map; reflexivity |].
  intros c Hin. apply in_map_iff in Hin as (org & <- & _).
  unfold Dashboard.mapCompany; simpl.
  repeat split.
  - destruct (Dashboard.row_is_active org) as [[|] |]; auto.
  - destruct (Dashboard.row_is_active org) as [[|] |]; auto.
  - apply or_else_not_empty; discriminate.
  - eexists; split; [reflexivity | apply or_else_not_empty; discriminate].
  - eexists; split; [reflexivity | apply or_else_not_empty; discriminate].
  - eexists; split; [reflexivity | apply or_else_not_empty; discriminate].
Qed.

(** ** The search box *)

Lemma includes_empty (s : string) : Dashboard.includes s "" = true.
Proof. destruct s; reflexivity. Qed.

Lemma prefix_refl (s : string) : prefix s s = true.
Proof.
  induction s as [| a s IH]; simpl; [reflexivity |].
  destruct (Ascii.ascii_dec a a) as [_ | N]; [exact IH | now destruct N].
Qed.

Lemma includes_refl (s : string) : Dashboard.includes s s = true.
Proof.
  destruct s; unfold Dashboard.includes; fold Dashboard.includes;
    now rewrite prefix_refl.
Qed.

(** X20.  With a search term whose lower-case form is empty (the empty
    search box) the table lists every company; and whatever the term, the
    table lists only companies of the list, among them every company whose
    name or email is, up to case, the term itself. *)
Theorem empty_search_lists_every_company
    (toLowerCase : string -> string) (s : Dashboard.state) :
  toLowerCase (Dashboard.searchTerm s) = "" ->
  Dashboard.filteredCompanies toLowerCase s = Dashboard.companies s /\
  forall term c,
    (In c (Dashboard.filteredCompanies toLowerCase (Dashboard.setSearchTerm s term)) ->
     In c (Dashboard.companies s)) /\
    (In c (Dashboard.companies s) ->
     toLowerCase (Dashboard.company_name c) = toLowerCase term \/
     toLowerCase (Dashboard.email c) = toLowerCase term ->
     In c (Dashboard.filteredCompanies toLowerCase (Dashboard.setSearchTerm s term))).
Proof.
  intros E. unfold Dashboard.filteredCompanies. rewrite E. split.
  - induction (Dashboard.companies s) as [| c l IH]; simpl; [reflexivity |].
    rewrite includes_empty; simpl. now rewrite IH.
  - intros term c; simpl; split.
    + intros H; apply filter_In in H; tauto.
    + intros H [M | M]; apply filter_In; (split; [exact H |]);
        rewrite M, includes_refl; simpl; auto using orb_true_r.
Qed.

(** * Part VI: the further properties, on the scenarios *)

Lemma demo_runs env req b :
  runs (handler env req)
       (if String.eqb (method req) "OPTIONS" then []
        else Backend.trace_of (Scenario.run env req b))
       (if String.eqb (method req) "OPTIONS" then Returned preflight_response
        else Backend.outcome_of (Scenario.run env req b)).
Proof.
  unfold handler. destruct (String.eqb (method req) "OPTIONS").
  - simpl; auto.
  - apply scenario_runs.
Qed.

(** A run against a backend whose [try] block throws fails with the kind of
    what was thrown. *)
Lemma invoke_fails_with
    (on_account_deleted : list Backend.ProfileRow -> string -> list Backend.ProfileRow)
    (on_organization_deleted : list Backend.ProfileRow -> json -> list Backend.ProfileRow)
    (delete_refused : Backend.state -> json -> option PostgrestError)
    (account_refused : Backend.state -> string -> option AuthError)
    env req b e b' k :
  exec (Backend.answer on_account_deleted on_organization_deleted
                       delete_refused account_refused)
       (deprovision_try env req) b = (Thrown e, b') ->
  kind_of e = Some k ->
  fails_with env req
    (Backend.trace_of
       (Backend.invoke on_account_deleted on_organization_deleted
                       delete_refused account_refused
                       env req b))
    (Backend.outcome_of
       (Backend.invoke on_account_deleted on_organization_deleted
                       delete_refused account_refused
                       env req b))
    k.
Proof.
  intros E K.
  destruct (invoke_thrown on_account_deleted on_organization_deleted
                          delete_refused account_refused
                          env req b E) as (t' & R & Ht & Ho & _).
  exists e, t'. unfold Backend.trace_of, Backend.outcome_of. auto.
Qed.

(** The super admin deletes [org-1]. *)
Lemma privileged_calls_need_authorization_witness :
  caller_authorized (Backend.trace_of Demo.deletion) /\
  exists i key,
    organizationId_of Scenario.delete_org1 = Some (Some i) /\
    truthy i = true /\
    SERVICE_ROLE_KEY Scenario.env = Some key /\
    key <> "" /\
    exists rest,
      filter privileged (Backend.trace_of Demo.deletion)
      = Call (CreateAdminClient (nullish (SUPABASE_URL Scenario.env) "") key) tt :: rest.
Proof.
  apply privileged_calls_need_authorization with
    (o := Backend.outcome_of Demo.deletion).
  - apply scenario_runs.
  - vm_compute. discriminate.
Defined.

(** The same request without the secret. *)
Lemma missing_secret_is_misconfiguration_witness :
  fails_with Scenario.env_without_secret Scenario.delete_org1
    (Backend.trace_of Demo.unconfigured) (Backend.outcome_of Demo.unconfigured)
    Misconfiguration /\
  In ServiceRoleKeyMissing (collect error_log (Backend.trace_of Demo.unconfigured)) /\
  filter privileged (Backend.trace_of Demo.unconfigured) = [].
Proof.
  apply missing_secret_is_misconfiguration.
  - apply scenario_runs.
  - left. reflexivity.
  - split.
    + exists (mkUser "admin-1"). vm_compute. auto.
    + exists (Some (mkProfile (JString "super_admin"))). split.
      * vm_compute. auto.
      * reflexivity.
  - reflexivity.
Defined.


Lemma only_the_named_organization_witness :
  (forall i r,
     In (i, r) (collect organization_lookup (Backend.trace_of Demo.deletion)) ->
     organizationId_of Scenario.delete_org1 = Some (Some i)) /\
  (forall i r,
     In (i, r) (collect enumeration (Backend.trace_of Demo.deletion)) ->
     organizationId_of Scenario.delete_org1 = Some (Some i)) /\
  (forall i r,
     In (i, r) (collect organization_deletion (Backend.trace_of Demo.deletion)) ->
     organizationId_of Scenario.delete_org1 = Some (Some i)) /\
  (forall u r,
     In (u, r) (collect account_deletion (Backend.trace_of Demo.deletion)) ->
     truthy u = true /\
     exists i res,
       In (i, res) (collect enumeration (Backend.trace_of Demo.deletion)) /\
       In u (map user_id (enumerated res))).
Proof.
  apply only_the_named_organization with
    (env := Scenario.env) (o := Backend.outcome_of Demo.deletion).
  apply scenario_runs.
Defined.

Lemma organization_delete_comes_last_witness :
  Backend.trace_of Demo.deletion
  = before_organization_delete (Backend.trace_of Demo.deletion)
    ++ Call (DeleteOrganization (JString "org-1")) None
       :: after_organization_delete (Backend.trace_of Demo.deletion) /\
  collect organization_deletion
    (before_organization_delete (Backend.trace_of Demo.deletion)) = [] /\
  collect account_deletion (before_organization_delete (Backend.trace_of Demo.deletion))
  = collect account_deletion (Backend.trace_of Demo.deletion) /\
  filter privileged (after_organization_delete (Backend.trace_of Demo.deletion)) = [] /\
  after_organization_delete (Backend.trace_of Demo.deletion) = [].
Proof.
  apply organization_delete_comes_last with
    (env := Scenario.env) (req := Scenario.delete_org1) (r := None)
    (o := Backend.outcome_of Demo.deletion).
  - apply scenario_runs.
  - vm_compute. auto.
Defined.

Lemma nothing_is_retried_witness :
  List.length (collect identity_request (Backend.trace_of Demo.deletion)) <= 1 /\
  List.length (collect role_lookup (Backend.trace_of Demo.deletion)) <= 1 /\
  List.length (collect admin_client_creation (Backend.trace_of Demo.deletion)) <= 1 /\
  List.length (collect organization_lookup (Backend.trace_of Demo.deletion)) <= 1 /\
  List.length (collect enumeration (Backend.trace_of Demo.deletion)) <= 1 /\
  List.length (collect organization_deletion (Backend.trace_of Demo.deletion)) <= 1.
Proof.
  apply nothing_is_retried with
    (env := Scenario.env) (req := Scenario.delete_org1)
    (o := Backend.outcome_of Demo.deletion).
  apply scenario_runs.
Defined.

(** A store that refuses the delete. *)
Lemma success_iff_delete_acknowledged_witness :
  exists resp,
    Backend.outcome_of Demo.refused_deletion = Returned resp /\
    (resp = success_response <->
     exists i,
       In (i, None) (collect organization_deletion (Backend.trace_of Demo.refused_deletion))) /\
    (status resp = 200 <-> resp = success_response) /\
    (resp <> success_response -> status resp = 400).
Proof.
  apply success_iff_delete_acknowledged with
    (env := Scenario.env) (req := Scenario.delete_org1).
  apply scenario_refused_runs.
Defined.

(** One linked account is already gone. *)
Lemma failed_account_deletions_are_logged_witness :
  collect deletion_failure_log (Backend.trace_of Demo.stale_deletion)
  = failed_deletions (collect account_deletion (Backend.trace_of Demo.stale_deletion)).
Proof.
  apply failed_account_deletions_are_logged with
    (env := Scenario.env) (req := Scenario.delete_org1)
    (o := Backend.outcome_of Demo.stale_deletion).
  apply scenario_runs.
Defined.

Lemma role_checked_is_the_callers_witness :
  (forall a,
     In a (collect identity_request (Backend.trace_of Demo.deletion)) ->
     a = authorization Scenario.delete_org1) /\
  (forall a uid,
     In (a, uid) (collect role_lookup (Backend.trace_of Demo.deletion)) ->
     a = authorization Scenario.delete_org1 /\
     collect resolved_identity (Backend.trace_of Demo.deletion) = [Some (mkUser uid)]).
Proof.
  apply role_checked_is_the_callers with
    (env := Scenario.env) (o := Backend.outcome_of Demo.deletion).
  apply scenario_runs.
Defined.

(** A preflight request, and the super admin's request to delete [org-1]. *)
Lemma preflight_or_authenticated_witness :
  ((@nil call = [] <-> method Demo.preflight = "OPTIONS") /\
   (method Demo.preflight = "OPTIONS" ->
    Returned preflight_response =
    Returned
      (mkResponse 200
         [ ("Access-Control-Allow-Origin", "*");
           ("Access-Control-Allow-Headers",
            "authorization, x-client-info, apikey, content-type");
           ("Content-Type", "text/plain;charset=UTF-8") ]
         (BodyText "ok"))) /\
   (method Demo.preflight <> "OPTIONS" ->
    forall pre a u post,
      [] = pre ++ Call (AuthGetUser a) u :: post ->
      a = authorization Demo.preflight /\
      pre = [ Call (CreateClient (nullish (SUPABASE_URL Scenario.env) "")
                                 (nullish (SUPABASE_ANON_KEY Scenario.env) "")
                                 (authorization Demo.preflight)) tt ]))
  /\
  ((Backend.trace_of Demo.deletion = [] <-> method Scenario.delete_org1 = "OPTIONS") /\
   (method Scenario.delete_org1 = "OPTIONS" ->
    Backend.outcome_of Demo.deletion =
    Returned
      (mkResponse 200
         [ ("Access-Control-Allow-Origin", "*");
           ("Access-Control-Allow-Headers",
            "authorization, x-client-info, apikey, content-type");
           ("Content-Type", "text/plain;charset=UTF-8") ]
         (BodyText "ok"))) /\
   (method Scenario.delete_org1 <> "OPTIONS" ->
    forall pre a u post,
      Backend.trace_of Demo.deletion = pre ++ Call (AuthGetUser a) u :: post ->
      a = authorization Scenario.delete_org1 /\
      pre = [ Call (CreateClient (nullish (SUPABASE_URL Scenario.env) "")
                                 (nullish (SUPABASE_ANON_KEY Scenario.env) "")
                                 (authorization Scenario.delete_org1)) tt ])).
Proof.
  split.
  - apply preflight_or_authenticated.
    exact (demo_runs Scenario.env Demo.preflight Scenario.backend).
  - apply preflight_or_authenticated.
    exact (demo_runs Scenario.env Scenario.delete_org1 Scenario.backend).
Defined.

(** A request for an organization that does not exist. *)
Lemma every_response_has_cors_headers_witness :
  exists resp,
    Backend.outcome_of Demo.unknown_deletion = Returned resp /\
    (forall h, In h corsHeaders -> In h (headers resp)) /\
    (method Scenario.delete_unknown <> "OPTIONS" ->
     In ("Content-Type", "application/json") (headers resp)) /\
    (status resp = 200 \/ status resp = 400).
Proof.
  apply every_response_has_cors_headers with
    (env := Scenario.env) (t := Backend.trace_of Demo.unknown_deletion).
  exact (demo_runs Scenario.env Scenario.delete_unknown Scenario.backend).
Defined.

Lemma refused_request_changes_nothing_witness :
  Backend.state_of Demo.unknown_deletion = Scenario.backend.
Proof.
  apply (@refused_request_changes_nothing
           Backend.cascade_account Backend.cascade_organization Backend.never_refused
           Backend.no_account_refused
           Scenario.env Scenario.delete_unknown Scenario.backend NotFound).
  - eapply invoke_fails_with; reflexivity.
  - discriminate.
Defined.



(** Acme is confirmed in a table of two. *)
Lemma deleted_row_leaves_the_table_witness :
  Dashboard.filteredCompanies (fun s => s) (snd (Dashboard.confirmDelete Demo.table None)) =
    filter (fun c' => negb (String.eqb (Dashboard.id c') (Dashboard.id Demo.acme)))
           (Dashboard.filteredCompanies (fun s => s) Demo.table) /\
  (forall c', In c' (Dashboard.filteredCompanies (fun s => s)
                       (snd (Dashboard.confirmDelete Demo.table None))) ->
              Dashboard.id c' <> Dashboard.id Demo.acme) /\
  Dashboard.deleteModalOpen (snd (Dashboard.confirmDelete Demo.table None)) = false /\
  Dashboard.companyToDelete (snd (Dashboard.confirmDelete Demo.table None)) = None /\
  Dashboard.isDeleting (snd (Dashboard.confirmDelete Demo.table None)) = false.
Proof.
  apply deleted_row_leaves_the_table. reflexivity.
Defined.

Lemma open_modal_has_a_selection_witness :
  exists c,
    Dashboard.companyToDelete Demo.table = Some c /\
    forall error,
      Dashboard.invocations (fst (Dashboard.confirmDelete Demo.table error)) =
      [ ("delete-account", JObject [ ("organizationId", JString (Dashboard.id c)) ]) ].
Proof.
  apply open_modal_has_a_selection.
  - apply Dashboard.reach_click, Dashboard.reach_fetch, Dashboard.reach_initial.
  - reflexivity.
Defined.



(** The search box is empty. *)
Lemma empty_search_lists_every_company_witness :
  Dashboard.filteredCompanies (fun s => s) Demo.table = Dashboard.companies Demo.table /\
  forall term c,
    (In c (Dashboard.filteredCompanies (fun s => s) (Dashboard.setSearchTerm Demo.table term)) ->
     In c (Dashboard.companies Demo.table)) /\
    (In c (Dashboard.companies Demo.table) ->
     Dashboard.company_name c = term \/ Dashboard.email c = term ->
     In c (Dashboard.filteredCompanies (fun s => s) (Dashboard.setSearchTerm Demo.table term))).
Proof.
  apply (@empty_search_lists_every_company (fun s => s) Demo.table). reflexivity.
Defined.
